(** * A shallow embedding of [server.js], the personal-training backend

    The server keeps one JSON document ([database.json]) and answers every
    request by loading it, changing it and writing it back.  The embedding
    follows the source function by function:

    - JSON scalars and the JavaScript operators the handlers apply to them
      (truthiness, [||], [===], [parseInt], [Number.prototype.toString(36)]);
    - the parts of the Node runtime the handlers call: the [path] module
      (POSIX), and [Date], [URL] and [__dirname] behind a type class, because
      their results depend on the host (time zone, parser heuristics,
      installation directory);
    - the store as a record, the handlers as functions from the store to a
      new store and a response, with the clock, the outcome of disk writes
      and the readable files passed in as the environment of the request.

    Conventions.  A JavaScript number is an [option Z]: [Some n] for the
    integer-valued double [n], [None] for [NaN] (every number the handlers
    compute is an integer below 2^53 in magnitude or [NaN]).  A property that
    may be absent is an [option]; [None] is [undefined].  Values of request
    fields are JSON scalars with integer numbers; array- and object-valued
    fields and fractions are not modelled.  Strings are byte strings. *)

From Stdlib Require Import ZArith String Ascii List Bool Lia.
From stdpp Require Import base option list strings gmap.

Local Open Scope string_scope.
Local Open Scope list_scope.
Local Open Scope Z_scope.

(** ** JSON scalars and JavaScript operators *)

Inductive json : Type :=
  | JNull
  | JBool (b : bool)
  | JNum (n : Z)
  | JStr (s : string).

#[global] Instance json_eq_dec : EqDecision json.
Proof. solve_decision. Defined.

(** [ToBoolean] on a value that is present. *)
Definition truthy (v : json) : bool :=
  match v with
  | JNull => false
  | JBool b => b
  | JNum n => negb (Z.eqb n 0)
  | JStr s => negb (String.eqb s "")
  end.

(** [ToBoolean] on a property that may be [undefined]. *)
Definition truthy_opt (o : option json) : bool :=
  match o with
  | Some v => truthy v
  | None => false
  end.

(** [o || d] where [d] is a present value. *)
Definition or_default (o : option json) (d : json) : json :=
  match o with
  | Some v => if truthy v then v else d
  | None => d
  end.

(** [a === b] on scalars and [undefined]. *)
Definition strict_eq (a b : option json) : bool := bool_decide (a = b).

(** ** Strings *)

Fixpoint starts_with (p s : string) : bool :=
  match p, s with
  | EmptyString, _ => true
  | String a p', String b s' => Ascii.eqb a b && starts_with p' s'
  | String _ _, EmptyString => false
  end.

(** [s.split(sep)] for a one-character separator. *)
Fixpoint split (sep : ascii) (s : string) : list string :=
  match s with
  | EmptyString => [EmptyString]
  | String c s' =>
      if Ascii.eqb c sep then EmptyString :: split sep s'
      else match split sep s' with
           | h :: t => String c h :: t
           | [] => [String c EmptyString]
           end
  end.

(** [sep]-joined concatenation, [Array.prototype.join]. *)
Fixpoint join (sep : string) (l : list string) : string :=
  match l with
  | [] => ""
  | [x] => x
  | x :: l' => x +:+ sep +:+ join sep l'
  end.

(** [s.indexOf(c)], [None] for -1. *)
Fixpoint index_of (c : ascii) (s : string) : option nat :=
  match s with
  | EmptyString => None
  | String a s' => if Ascii.eqb a c then Some 0%nat else S <$> index_of c s'
  end.

Fixpoint filter_chars (keep : ascii -> bool) (s : string) : string :=
  match s with
  | EmptyString => EmptyString
  | String a s' =>
      if keep a then String a (filter_chars keep s') else filter_chars keep s'
  end.

Definition in_range (lo hi : string) (a : ascii) : bool :=
  match lo, hi with
  | String l _, String h _ =>
      (nat_of_ascii l <=? nat_of_ascii a)%nat && (nat_of_ascii a <=? nat_of_ascii h)%nat
  | _, _ => false
  end.

Definition is_digit (a : ascii) : bool := in_range "0" "9" a.

(** The class [[A-Za-z0-9_.-]]. *)
Definition safe_char (a : ascii) : bool :=
  in_range "A" "Z" a || in_range "a" "z" a || is_digit a
  || Ascii.eqb a "_" || Ascii.eqb a "." || Ascii.eqb a "-".

(** [fileName.replace(/[^A-Za-z0-9_.-]/g, '')] *)
Definition strip_unsafe (fileName : string) : string := filter_chars safe_char fileName.

Definition lower_char (a : ascii) : ascii :=
  if in_range "A" "Z" a then ascii_of_nat (nat_of_ascii a + 32) else a.

Fixpoint toLowerCase (s : string) : string :=
  match s with
  | EmptyString => EmptyString
  | String a s' => String (lower_char a) (toLowerCase s')
  end.

(** ** [Number.prototype.toString(36)] on integers *)

Definition digit_char (d : Z) : ascii :=
  if d <? 10 then ascii_of_nat (Z.to_nat (48 + d)) else ascii_of_nat (Z.to_nat (87 + d)).

(** The base-36 digits of [n >= 0], most significant first; [fuel] bounds the
    number of digits. *)
Fixpoint digits36 (fuel : nat) (n : Z) (acc : string) : string :=
  match fuel with
  | O => String (digit_char (n mod 36)) acc
  | S fuel' =>
      if n <? 36 then String (digit_char n) acc
      else digits36 fuel' (n / 36) (String (digit_char (n mod 36)) acc)
  end.

Definition toString36 (n : Z) : string :=
  if n <? 0 then String "-" (digits36 (Z.to_nat (Z.log2 (- n))) (- n) "")
  else digits36 (Z.to_nat (Z.log2 n)) n "".

(** ** [parseInt] *)

(** White space skipped by [parseInt] (the ASCII part of it). *)
Definition is_space (a : ascii) : bool :=
  let n := nat_of_ascii a in
  ((9 <=? n)%nat && (n <=? 13)%nat) || (n =? 32)%nat.

Fixpoint skip_spaces (s : string) : string :=
  match s with
  | String a s' => if is_space a then skip_spaces s' else s
  | EmptyString => s
  end.

Definition digit_value (radix : Z) (a : ascii) : option Z :=
  let n := Z.of_nat (nat_of_ascii a) in
  let d := if is_digit a then n - 48
           else if in_range "a" "z" a then n - 87
           else if in_range "A" "Z" a then n - 55
           else 36 in
  if d <? radix then Some d else None.

(** The value of the longest prefix of digits; [acc] is [None] while no
    digit has been read. *)
Fixpoint parse_digits (radix : Z) (s : string) (acc : option Z) : option Z :=
  match s with
  | EmptyString => acc
  | String a s' =>
      match digit_value radix a with
      | Some d => parse_digits radix s' (Some (radix * default 0 acc + d))
      | None => acc
      end
  end.

Definition parse_unsigned (s : string) : option Z :=
  match s with
  | String "0" (String x r) =>
      if Ascii.eqb x "x" || Ascii.eqb x "X" then parse_digits 16 r None
      else parse_digits 10 s None
  | _ => parse_digits 10 s None
  end.

Definition parseInt_string (s : string) : option Z :=
  match skip_spaces s with
  | String "-" r => Z.opp <$> parse_unsigned r
  | String "+" r => parse_unsigned r
  | r => parse_unsigned r
  end.

(** [parseInt(v)]: the argument is converted to a string first, so [null]
    and the booleans give [NaN] and an integer gives itself. *)
Definition parseInt (v : json) : option Z :=
  match v with
  | JStr s => parseInt_string s
  | JNum n => Some n
  | JBool _ | JNull => None
  end.

(** ** Numbers: [option Z] with [None] for [NaN] *)

Definition num_add (a b : option Z) : option Z :=
  match a, b with Some x, Some y => Some (x + y) | _, _ => None end.

Definition num_sub (a b : option Z) : option Z :=
  match a, b with Some x, Some y => Some (x - y) | _, _ => None end.

(** [a > 0] and [a <= 0]; both are false on [NaN]. *)
Definition num_gt0 (a : option Z) : bool :=
  match a with Some x => 0 <? x | None => false end.

Definition num_le0 (a : option Z) : bool :=
  match a with Some x => x <=? 0 | None => false end.

Definition day_ms : Z := 1000 * 3600 * 24.

(** [Math.ceil(a / day_ms)].  The quotient of two integers below 2^53 is
    rounded correctly and can only be an integer when the division is exact,
    so the ceiling of the double is the ceiling of the rational. *)
Definition ceil_days (a : option Z) : option Z :=
  (fun x => - ((- x) / day_ms)) <$> a.

(** ** The runtime: [Date], [URL], [__dirname] *)

Class Runtime := {
  (** [Date.parse(s)] *)
  Date_parse : string -> option Z;
  (** [d.getMonth()] of the valid time value [t], in local time *)
  getMonth : Z -> Z;
  (** the time value after [d.setMonth(m)] on the valid time value [t] *)
  setMonth : Z -> Z -> option Z;
  (** [new Date(t).toISOString()] *)
  toISOString : Z -> string;
  (** [new URL(url, base).searchParams.get(name)], [None] for [null] *)
  searchParams_get : string -> string -> option string;
  (** the directory of [server.js] *)
  __dirname : string
}.

Definition time_clip (t : Z) : option Z :=
  if Z.abs t <=? 8640000000000000 then Some t else None.

(** [new Date(v).getTime()] *)
Definition new_Date `{Runtime} (v : json) : option Z :=
  match v with
  | JStr s => Date_parse s
  | JNum n => time_clip n
  | JBool b => Some (if b then 1 else 0)
  | JNull => Some 0
  end.

(** [end.setMonth(end.getMonth() + m); end.getTime()] for a date [end]
    holding [start]. *)
Definition add_months `{Runtime} (start m : option Z) : option Z :=
  match start, m with
  | Some t, Some n => setMonth t (getMonth t + n)
  | _, _ => None
  end.

(** ** The [path] module (POSIX) *)

(** [normalizeString]: [res] is the stack of segments kept so far, last
    segment first. *)
Fixpoint normalize_segments (allowAboveRoot : bool) (segs res : list string)
    : list string :=
  match segs with
  | [] => rev res
  | s :: segs' =>
      if String.eqb s "" || String.eqb s "." then
        normalize_segments allowAboveRoot segs' res
      else if String.eqb s ".." then
        match res with
        | top :: res' =>
            if String.eqb top ".." then
              normalize_segments allowAboveRoot segs'
                (if allowAboveRoot then ".." :: res else res)
            else normalize_segments allowAboveRoot segs' res'
        | [] =>
            normalize_segments allowAboveRoot segs'
              (if allowAboveRoot then [".."] else [])
        end
      else normalize_segments allowAboveRoot segs' (s :: res)
  end.

Fixpoint ends_with_slash (s : string) : bool :=
  match s with
  | EmptyString => false
  | String a EmptyString => Ascii.eqb a "/"
  | String _ s' => ends_with_slash s'
  end.

Definition normalize (path : string) : string :=
  if String.eqb path "" then "."
  else
    let isAbsolute := starts_with "/" path in
    let trailingSeparator := ends_with_slash path in
    let p := join "/" (normalize_segments (negb isAbsolute) (split "/" path) []) in
    if String.eqb p "" then
      if isAbsolute then "/" else if trailingSeparator then "./" else "."
    else
      let p := if trailingSeparator then p +:+ "/" else p in
      if isAbsolute then "/" +:+ p else p.

(** [path.join(a, b)] *)
Definition path_join (a b : string) : string :=
  if String.eqb a "" then (if String.eqb b "" then "." else normalize b)
  else if String.eqb b "" then normalize a
  else normalize (a +:+ "/" +:+ b).

Fixpoint last_index_of (c : ascii) (s : string) : option nat :=
  match s with
  | EmptyString => None
  | String a s' =>
      match last_index_of c s' with
      | Some i => Some (S i)
      | None => if Ascii.eqb a c then Some 0%nat else None
      end
  end.

Fixpoint drop_chars (n : nat) (s : string) : string :=
  match n, s with
  | S n', String _ s' => drop_chars n' s'
  | _, _ => s
  end.

(** [path.extname(p)]: the extension of the last non-empty segment. *)
Definition extname (p : string) : string :=
  match filter (fun s => s <> "") (rev (split "/" p)) with
  | base :: _ =>
      match last_index_of "." base with
      | None | Some O => ""
      | Some i => if String.eqb base ".." then "" else drop_chars i base
      end
  | [] => ""
  end.

(** [s.replace(/^\/+/, '')] *)
Fixpoint strip_leading_slashes (s : string) : string :=
  match s with
  | String a s' => if Ascii.eqb a "/" then strip_leading_slashes s' else s
  | EmptyString => s
  end.

(** ** The store ([database.json]) *)

Module Admin.
Record t := { username : json; password : json }.
End Admin.

Module Client.
(** [daysLeft] is absent until a read has written it; it is then a number
    or [null]. *)
Record t := {
  id : string; name : json; email : json; startDate : json;
  active : bool; duration : json; daysLeft : option json
}.
Definition with_daysLeft (v : json) (c : t) : t :=
  {| id := id c; name := name c; email := email c; startDate := startDate c;
     active := active c; duration := duration c; daysLeft := Some v |}.
Definition with_active (b : bool) (c : t) : t :=
  {| id := id c; name := name c; email := email c; startDate := startDate c;
     active := b; duration := duration c; daysLeft := daysLeft c |}.
End Client.

Module Program.
Record t := { id : string; title : json; description : json; image : json }.
End Program.

Module Message.
Record t := {
  sender : json; time : string; text : option json; attachment : option string
}.
End Message.

Module Ticket.
Record t := {
  id : string; email : json; password : json; created : string;
  status : option json; messages : list Message.t
}.
Definition with_status (s : option json) (k : t) : t :=
  {| id := id k; email := email k; password := password k; created := created k;
     status := s; messages := messages k |}.
(** [ticket.messages.push(m)] *)
Definition push (m : Message.t) (k : t) : t :=
  {| id := id k; email := email k; password := password k; created := created k;
     status := status k; messages := messages k ++ [m] |}.
End Ticket.

Module Recipe.
Record t := {
  id : string; title : json; ingredients : json; instructions : json; image : json
}.
End Recipe.

Record db := {
  admin : Admin.t;
  clients : list Client.t;
  programs : list Program.t;
  tickets : list Ticket.t;
  recipes : list Recipe.t
}.

Definition with_clients (l : list Client.t) (d : db) : db :=
  {| admin := admin d; clients := l; programs := programs d;
     tickets := tickets d; recipes := recipes d |}.
Definition with_programs (l : list Program.t) (d : db) : db :=
  {| admin := admin d; clients := clients d; programs := l;
     tickets := tickets d; recipes := recipes d |}.
Definition with_tickets (l : list Ticket.t) (d : db) : db :=
  {| admin := admin d; clients := clients d; programs := programs d;
     tickets := l; recipes := recipes d |}.
Definition with_recipes (l : list Recipe.t) (d : db) : db :=
  {| admin := admin d; clients := clients d; programs := programs d;
     tickets := tickets d; recipes := l |}.

(** The document [initDB] writes when there is none. *)
Definition initDB : db :=
  {| admin := {| Admin.username := JStr "admin"; Admin.password := JStr "admin123" |};
     clients := []; programs := []; tickets := []; recipes := [] |}.

(** ** Requests and responses *)

(** What [parseBody] and the first property access make of the request body:
    text that is not JSON, the JSON value [null] (reading a property of it
    throws), or an object.  An empty body is the empty object, and a scalar
    other than [null] has none of the properties the handlers read, so it
    behaves as the empty object too. *)
Inductive body :=
  | BadJson
  | NullBody
  | Obj (o : gmap string json).

Record request := { method : string; url : string; reqBody : body }.

(** What a request finds outside the store: the successive readings of the
    clock ([clock k] is the [k]-th reading the handler takes, [Date.now()]
    or [new Date()]), whether [fs.writeFileSync(path, data)] succeeds, and
    the files [fs.readFile] can read. *)
Record env := {
  clock : nat -> Z;
  writeFileSync : string -> string -> bool;
  readFile : string -> option string
}.

Inductive payload :=
  | RError (message : string)
  | RSuccess (success : bool)
  | RId (id : string)
  | RClients (l : list Client.t)
  | RPrograms (l : list Program.t)
  | RTickets (l : list Ticket.t)
  | RTicket (k : Ticket.t)
  | RRecipes (l : list Recipe.t)
  | RContent (content : string).

Record response := { statusCode : Z; contentType : string; content : payload }.

(** [res.writeHead(code, {'Content-Type': 'application/json'});
    res.end(JSON.stringify(p))] *)
Definition reply (code : Z) (p : payload) : response :=
  {| statusCode := code; contentType := "application/json"; content := p |}.

(** The handlers below return the store as it is on disk after the request
    together with the response. *)
Definition result : Type := db * response.

(** [parseBody(req).then(k).catch(err => 400)]: [k] runs on an object body;
    [null_message] is the message of the [TypeError] that reading a property
    of [null] raises. *)
Definition with_body (b : body) (null_message : string) (d : db)
    (k : gmap string json -> result) : result :=
  match b with
  | BadJson => (d, reply 400 (RError "Invalid JSON"))
  | NullBody => (d, reply 400 (RError null_message))
  | Obj o => k o
  end.

Definition cannot_destructure (prop : string) : string :=
  "Cannot destructure property '" +:+ prop +:+ "' of 'body' as it is null.".

(** A property the guard before has found truthy, so it is present. *)
Definition present (o : option json) : json := default JNull o.

(** ** [Array.prototype.sort] with a comparator

    The sort is stable; a comparator result of [NaN] counts as 0.  For a
    comparator that orders the elements consistently every stable sort
    returns the same array, which is the one insertion computes. *)

Section Sort.
Context {A : Type} (compare : A -> A -> option Z).

Definition before (x y : A) : bool := default 0 (compare x y) <=? 0.

Fixpoint insert_sorted (x : A) (l : list A) : list A :=
  match l with
  | [] => [x]
  | y :: l' => if before x y then x :: y :: l' else y :: insert_sorted x l'
  end.

Fixpoint sort (l : list A) : list A :=
  match l with
  | [] => []
  | x :: l' => insert_sorted x (sort l')
  end.
End Sort.

(** ** The API handlers *)

Section Handlers.
Context `{Runtime}.

Definition PUBLIC_DIR : string := path_join __dirname "public".
Definition UPLOAD_DIR : string := path_join PUBLIC_DIR "uploads".

(** *** [POST /api/login] *)
Definition post_login (b : body) (d : db) : result :=
  with_body b "Cannot read properties of null (reading 'username')" d (fun o =>
    let success :=
      strict_eq (o !! "username") (Some (Admin.username (admin d)))
      && strict_eq (o !! "password") (Some (Admin.password (admin d))) in
    (d, reply (if success then 200 else 401) (RSuccess success))).

(** *** [GET /api/clients] *)

(** The body of the [forEach]: the client as mutated, and whether
    [updated] was set. *)
Definition refresh (now : Z) (client : Client.t) : Client.t * bool :=
  if truthy (Client.startDate client) && truthy (Client.duration client) then
    let start := new_Date (Client.startDate client) in
    let end_ := add_months start (parseInt (Client.duration client)) in
    let diffMs := num_sub end_ (Some now) in
    let daysLeft := ceil_days diffMs in
    let client1 :=
      Client.with_daysLeft
        (JNum (if num_gt0 daysLeft then default 0 daysLeft else 0)) client in
    if Client.active client1 && num_le0 daysLeft
    then (Client.with_active false client1, true)
    else (client1, false)
  else (Client.with_daysLeft JNull client, false).

Definition get_clients (e : env) (d : db) : result :=
  let now := clock e 0 in
  let refreshed := map (refresh now) (clients d) in
  let d1 := with_clients (map fst refreshed) d in
  let updated := existsb snd refreshed in
  (if updated then d1 else d, reply 200 (RClients (clients d1))).

(** *** [POST /api/clients] *)
Definition post_clients (e : env) (b : body) (d : db) : result :=
  with_body b (cannot_destructure "name") d (fun o =>
    if negb (truthy_opt (o !! "name")) || negb (truthy_opt (o !! "email")) then
      (d, reply 400 (RError "name and email required"))
    else
      let id := toString36 (clock e 0) in
      let client :=
        {| Client.id := id;
           Client.name := present (o !! "name");
           Client.email := present (o !! "email");
           Client.startDate :=
             or_default (o !! "startDate")
               (JStr (default "" (split "T" (toISOString (clock e 1)) !! 0%nat)));
           Client.active := negb (strict_eq (o !! "active") (Some (JBool false)));
           Client.duration := or_default (o !! "duration") JNull;
           Client.daysLeft := None |} in
      (with_clients (clients d ++ [client]) d, reply 201 (RId id))).

(** *** [GET] and [POST /api/programs] *)
Definition get_programs (d : db) : result := (d, reply 200 (RPrograms (programs d))).

Definition post_programs (e : env) (b : body) (d : db) : result :=
  with_body b (cannot_destructure "title") d (fun o =>
    if negb (truthy_opt (o !! "title")) then
      (d, reply 400 (RError "title required"))
    else
      let id := toString36 (clock e 0) in
      let program :=
        {| Program.id := id;
           Program.title := present (o !! "title");
           Program.description := or_default (o !! "description") (JStr "");
           Program.image := or_default (o !! "image") JNull |} in
      (with_programs (programs d ++ [program]) d, reply 201 (RId id))).

(** *** [GET /api/tickets] *)
Definition get_tickets (d : db) : result := (d, reply 200 (RTickets (tickets d))).

(** The [try] block that stores an attachment: the path the message gets,
    or [None] when the block threw ([file] or [fileName] is not a string,
    so that [indexOf] or [replace] does not exist, or the write failed).
    [k] is the index of the clock reading for the file name.  The bytes
    written are the base-64 decoding of the payload after the first comma;
    the model hands the payload to [writeFileSync] undecoded. *)
Definition save_attachment (e : env) (k : nat) (file fileName : option json)
    : option string :=
  match file, fileName with
  | Some (JStr file), Some (JStr fileName) =>
      let base64Data :=
        match index_of "," file with
        | Some commaIndex => drop_chars (S commaIndex) file
        | None => file
        end in
      let safeName := toString36 (clock e k) +:+ "_" +:+ strip_unsafe fileName in
      let uploadPath := path_join UPLOAD_DIR safeName in
      if writeFileSync e uploadPath base64Data
      then Some ("/uploads/" +:+ safeName)
      else None
  | _, _ => None
  end.

(** *** [POST /api/support/create] *)
Definition post_support_create (e : env) (b : body) (d : db) : result :=
  with_body b (cannot_destructure "email") d (fun o =>
    let message := o !! "message" in
    let file := o !! "file" in
    let fileName := o !! "fileName" in
    if negb (truthy_opt (o !! "email")) || negb (truthy_opt (o !! "password")) then
      (d, reply 400 (RError "email and password required"))
    else
      let id := toString36 (clock e 0) in
      let ticket :=
        {| Ticket.id := id;
           Ticket.email := present (o !! "email");
           Ticket.password := present (o !! "password");
           Ticket.created := toISOString (clock e 1);
           Ticket.status := Some (JStr "open");
           Ticket.messages := [] |} in
      let ticket :=
        if truthy_opt message || (truthy_opt file && truthy_opt fileName) then
          let msg :=
            {| Message.sender := JStr "client";
               Message.time := toISOString (clock e 2);
               Message.text := if truthy_opt message then message else None;
               Message.attachment :=
                 if truthy_opt file && truthy_opt fileName
                 then save_attachment e 3 file fileName else None |} in
          Ticket.push msg ticket
        else ticket in
      (with_tickets (tickets d ++ [ticket]) d, reply 201 (RTicket ticket))).

(** [db.tickets.find(t => t.id === id)] with its position, so that the
    ticket can be changed in place; [id] is [parts[3]]. *)
Definition find_ticket (id : option string) (d : db) : option (nat * Ticket.t) :=
  list_find (fun t => Some (Ticket.id t) = id) (tickets d).

(** *** [GET /api/tickets/:id] *)
Definition get_ticket (id : option string) (d : db) : result :=
  match find_ticket id d with
  | None => (d, reply 404 (RError "not found"))
  | Some (_, ticket) => (d, reply 200 (RTicket ticket))
  end.

(** *** [POST /api/tickets/:id/message] *)
Definition post_message (e : env) (id : option string) (b : body) (d : db) : result :=
  with_body b (cannot_destructure "sender") d (fun o =>
    let text := o !! "text" in
    let file := o !! "file" in
    let fileName := o !! "fileName" in
    if negb (truthy_opt text) && negb (truthy_opt file) then
      (d, reply 400 (RError "text or file required"))
    else
      match find_ticket id d with
      | None => (d, reply 404 (RError "not found"))
      | Some (i, ticket) =>
          let msg :=
            {| Message.sender := or_default (o !! "sender") (JStr "client");
               Message.time := toISOString (clock e 0);
               Message.text := if truthy_opt text then text else None;
               Message.attachment :=
                 if truthy_opt file && truthy_opt fileName
                 then save_attachment e 1 file fileName else None |} in
          (with_tickets (<[i := Ticket.push msg ticket]> (tickets d)) d,
           reply 200 (RSuccess true))
      end).

(** *** [PUT /api/tickets/:id] *)
Definition closing_text : string := "Destek talebiniz kapatıldı.".
Definition reopening_text : string := "Destek talebiniz yeniden açıldı.".

Definition admin_message (text : string) (now : Z) : Message.t :=
  {| Message.sender := JStr "admin"; Message.time := toISOString now;
     Message.text := Some (JStr text); Message.attachment := None |}.

(** The ticket after [if (status) { ... }]. *)
Definition update_status (e : env) (status : option json) (ticket : Ticket.t)
    : Ticket.t :=
  if truthy_opt status then
    let oldStatus := or_default (Ticket.status ticket) (JStr "open") in
    let ticket := Ticket.with_status status ticket in
    let ticket :=
      if strict_eq status (Some (JStr "closed"))
         && negb (strict_eq (Some oldStatus) (Some (JStr "closed")))
      then Ticket.push (admin_message closing_text (clock e 0)) ticket
      else ticket in
    if strict_eq status (Some (JStr "open"))
       && strict_eq (Some oldStatus) (Some (JStr "closed"))
    then Ticket.push (admin_message reopening_text (clock e 0)) ticket
    else ticket
  else ticket.

Definition put_ticket (e : env) (id : option string) (b : body) (d : db) : result :=
  with_body b (cannot_destructure "status") d (fun o =>
    match find_ticket id d with
    | None => (d, reply 404 (RError "not found"))
    | Some (i, ticket) =>
        (with_tickets (<[i := update_status e (o !! "status") ticket]> (tickets d)) d,
         reply 200 (RSuccess true))
    end).

(** *** [DELETE /api/tickets/:id] *)
Definition delete_ticket (id : option string) (d : db) : result :=
  match find_ticket id d with
  | None => (d, reply 404 (RError "not found"))
  | Some (index, _) =>
      (with_tickets (delete index (tickets d)) d, reply 200 (RSuccess true))
  end.

(** *** [/api/recipes] *)
Definition get_recipes (d : db) : result := (d, reply 200 (RRecipes (recipes d))).

Definition post_recipes (e : env) (b : body) (d : db) : result :=
  with_body b (cannot_destructure "title") d (fun o =>
    if negb (truthy_opt (o !! "title")) then
      (d, reply 400 (RError "title required"))
    else
      let id := toString36 (clock e 0) in
      let recipe :=
        {| Recipe.id := id;
           Recipe.title := present (o !! "title");
           Recipe.ingredients := or_default (o !! "ingredients") (JStr "");
           Recipe.instructions := or_default (o !! "instructions") (JStr "");
           Recipe.image := or_default (o !! "image") JNull |} in
      (with_recipes (recipes d ++ [recipe]) d, reply 201 (RId id))).

Definition find_recipe (id : option string) (d : db) : option (nat * Recipe.t) :=
  list_find (fun r => Some (Recipe.id r) = id) (recipes d).

(** [if (v !== undefined) recipe.field = v] *)
Definition assign (v : option json) (old : json) : json := default old v.

(** Here the lookup comes before the body is destructured, so a [null]
    body on an unknown id is answered 404. *)
Definition put_recipe (id : option string) (b : body) (d : db) : result :=
  match b with
  | BadJson => (d, reply 400 (RError "Invalid JSON"))
  | _ =>
      match find_recipe id d with
      | None => (d, reply 404 (RError "not found"))
      | Some (i, recipe) =>
          with_body b (cannot_destructure "title") d (fun o =>
            let recipe :=
              {| Recipe.id := Recipe.id recipe;
                 Recipe.title := assign (o !! "title") (Recipe.title recipe);
                 Recipe.ingredients :=
                   assign (o !! "ingredients") (Recipe.ingredients recipe);
                 Recipe.instructions :=
                   assign (o !! "instructions") (Recipe.instructions recipe);
                 Recipe.image := assign (o !! "image") (Recipe.image recipe) |} in
            (with_recipes (<[i := recipe]> (recipes d)) d, reply 200 (RSuccess true)))
      end
  end.

Definition delete_recipe (id : option string) (d : db) : result :=
  match find_recipe id d with
  | None => (d, reply 404 (RError "not found"))
  | Some (index, _) =>
      (with_recipes (delete index (recipes d)) d, reply 200 (RSuccess true))
  end.

(** *** [GET /api/user/ticket] *)

(** [!s] for a search parameter: [null] or the empty string. *)
Definition missing (s : option string) : bool :=
  match s with
  | Some s => String.eqb s ""
  | None => true
  end.

(** [t.email === email && t.password === password] *)
Definition credentials_match (email password : option string) (t : Ticket.t) : bool :=
  strict_eq (Some (Ticket.email t)) (JStr <$> email)
  && strict_eq (Some (Ticket.password t)) (JStr <$> password).

(** [new Date(b.created).getTime() - new Date(a.created).getTime()] *)
Definition by_created_desc (a b : Ticket.t) : option Z :=
  num_sub (Date_parse (Ticket.created b)) (Date_parse (Ticket.created a)).

Definition get_user_ticket (url : string) (d : db) : result :=
  let email := searchParams_get url "email" in
  let password := searchParams_get url "password" in
  if missing email || missing password then
    (d, reply 400 (RError "email and password required"))
  else
    let matching := List.filter (credentials_match email password) (tickets d) in
    match sort by_created_desc matching with
    | [] => (d, reply 404 (RError "no tickets found"))
    | ticket :: _ => (d, reply 200 (RTicket ticket))
    end.

(** *** [handleAPI]: the routes in the order of the source *)
Definition handleAPI (e : env) (req : request) (d : db) : result :=
  let method := method req in
  let url := url req in
  let parts := split "/" url in
  let id := parts !! 3%nat in
  if String.eqb url "/api/login" && String.eqb method "POST" then
    post_login (reqBody req) d
  else if String.eqb url "/api/clients" && String.eqb method "GET" then
    get_clients e d
  else if String.eqb url "/api/clients" && String.eqb method "POST" then
    post_clients e (reqBody req) d
  else if String.eqb url "/api/programs" && String.eqb method "GET" then
    get_programs d
  else if String.eqb url "/api/programs" && String.eqb method "POST" then
    post_programs e (reqBody req) d
  else if String.eqb url "/api/tickets" && String.eqb method "GET" then
    get_tickets d
  else if String.eqb url "/api/support/create" && String.eqb method "POST" then
    post_support_create e (reqBody req) d
  else if String.eqb method "GET" && starts_with "/api/tickets/" url then
    get_ticket id d
  else if String.eqb method "POST" && starts_with "/api/tickets/" url
          && bool_decide (parts !! 4%nat = Some "message") then
    post_message e id (reqBody req) d
  else if String.eqb method "PUT" && starts_with "/api/tickets/" url then
    put_ticket e id (reqBody req) d
  else if String.eqb method "DELETE" && starts_with "/api/tickets/" url then
    delete_ticket id d
  else if String.eqb url "/api/recipes" && String.eqb method "GET" then
    get_recipes d
  else if String.eqb url "/api/recipes" && String.eqb method "POST" then
    post_recipes e (reqBody req) d
  else if String.eqb method "PUT" && starts_with "/api/recipes/" url then
    put_recipe id (reqBody req) d
  else if String.eqb method "DELETE" && starts_with "/api/recipes/" url then
    delete_recipe id d
  else if String.eqb method "GET" && starts_with "/api/user/ticket" url then
    get_user_ticket url d
  else (d, reply 404 (RError "unknown endpoint")).

(** ** The static responder *)

Definition mime : list (string * string) :=
  [(".html", "text/html"); (".css", "text/css"); (".js", "application/javascript");
   (".json", "application/json"); (".png", "image/png"); (".jpg", "image/jpeg");
   (".jpeg", "image/jpeg"); (".svg", "image/svg+xml"); (".gif", "image/gif");
   (".pdf", "application/pdf")].

Definition mime_type (ext : string) : string :=
  match List.find (fun p => String.eqb (fst p) ext) mime with
  | Some p => snd p
  | None => "application/octet-stream"
  end.

(** The file [serveStatic] hands to [fs.readFile]. *)
Definition filePath (url : string) : string :=
  let reqPath := if String.eqb url "/" || String.eqb url "" then "/index.html" else url in
  let safePath := strip_leading_slashes (normalize reqPath) in
  path_join PUBLIC_DIR safePath.

Definition serveStatic (e : env) (req : request) : response :=
  let filePath := filePath (url req) in
  let ext := toLowerCase (extname filePath) in
  match readFile e filePath with
  | None =>
      {| statusCode := 404; contentType := "text/plain"; content := RContent "Not Found" |}
  | Some content =>
      {| statusCode := 200; contentType := mime_type ext; content := RContent content |}
  end.

Definition requestHandler (e : env) (req : request) (d : db) : result :=
  if starts_with "/api/" (url req) then handleAPI e req d
  else (d, serveStatic e req).

(** The store after a sequence of requests, each with its environment. *)
Definition run (rs : list (env * request)) (d : db) : db :=
  fold_left (fun d er => fst (requestHandler (fst er) (snd er) d)) rs d.

End Handlers.

(** ** A runtime: Node with the time zone set to UTC

    [Date] follows the proleptic Gregorian calendar of ECMAScript.
    [Date_parse] recognises the two forms the server itself writes, the date
    [YYYY-MM-DD] and the instant [YYYY-MM-DDTHH:mm:ss.sssZ] of
    [toISOString], and answers [NaN] on everything else, as the standard
    allows.  The URL parser reads the query of a request target and decodes
    [+] and percent escapes. *)

Module Utc.

(** Days from 1970-01-01 to the civil date [y]-[m]-[d], [m] from 1. *)
Definition days_from_civil (y m d : Z) : Z :=
  let y := if m <=? 2 then y - 1 else y in
  let era := y / 400 in
  let yoe := y - era * 400 in
  let doy := (153 * (if 2 <? m then m - 3 else m + 9) + 2) / 5 + d - 1 in
  let doe := yoe * 365 + yoe / 4 - yoe / 100 + doy in
  era * 146097 + doe - 719468.

(** The civil date (year, month from 1, day) of a day number. *)
Definition civil_from_days (z : Z) : Z * Z * Z :=
  let z := z + 719468 in
  let era := z / 146097 in
  let doe := z - era * 146097 in
  let yoe := (doe - doe / 1460 + doe / 36524 - doe / 146096) / 365 in
  let doy := doe - (365 * yoe + yoe / 4 - yoe / 100) in
  let mp := (5 * doy + 2) / 153 in
  let d := doy - (153 * mp + 2) / 5 + 1 in
  let m := if mp <? 10 then mp + 3 else mp - 9 in
  (if m <=? 2 then yoe + era * 400 + 1 else yoe + era * 400, m, d).

Definition getMonth (t : Z) : Z :=
  let '(_, m, _) := civil_from_days (t / day_ms) in m - 1.

(** [MakeDate(MakeDay(year, m, date), time within day)], clipped. *)
Definition setMonth (t m : Z) : option Z :=
  let '(y, _, d) := civil_from_days (t / day_ms) in
  let day := days_from_civil (y + m / 12) (m mod 12 + 1) 1 + d - 1 in
  time_clip (day * day_ms + t mod day_ms).

(** [width] decimal digits of [n], the lowest ones. *)
Fixpoint fixed (width : nat) (n : Z) : string :=
  match width with
  | O => ""
  | S w => fixed w (n / 10) +:+ String (digit_char (n mod 10)) ""
  end.

Definition toISOString (t : Z) : string :=
  let '(y, m, d) := civil_from_days (t / day_ms) in
  let ms := t mod day_ms in
  let year :=
    if (0 <=? y) && (y <=? 9999) then fixed 4 y
    else (if y <? 0 then "-" else "+") +:+ fixed 6 (Z.abs y) in
  year +:+ "-" +:+ fixed 2 m +:+ "-" +:+ fixed 2 d +:+ "T"
  +:+ fixed 2 (ms / 3600000) +:+ ":" +:+ fixed 2 (ms / 60000 mod 60) +:+ ":"
  +:+ fixed 2 (ms / 1000 mod 60) +:+ "." +:+ fixed 3 (ms mod 1000) +:+ "Z".

(** [n] decimal digits at the head of [s]: their value and the rest. *)
Fixpoint number (n : nat) (acc : Z) (s : string) : option (Z * string) :=
  match n, s with
  | O, _ => Some (acc, s)
  | S n', String a s' =>
      if is_digit a then number n' (10 * acc + (Z.of_nat (nat_of_ascii a) - 48)) s'
      else None
  | S _, EmptyString => None
  end.

Definition expect (c : ascii) (s : string) : option string :=
  match s with
  | String a s' => if Ascii.eqb a c then Some s' else None
  | EmptyString => None
  end.

Definition days_in_month (y m : Z) : Z :=
  days_from_civil (y + m / 12) (m mod 12 + 1) 1 - days_from_civil y m 1.

Definition parse_time (s : string) : option Z :=
  s ← expect "T" s;
  '(h, s) ← number 2 0 s;
  s ← expect ":" s;
  '(mi, s) ← number 2 0 s;
  s ← expect ":" s;
  '(sec, s) ← number 2 0 s;
  s ← expect "." s;
  '(ms, s) ← number 3 0 s;
  if String.eqb s "Z" && (h <? 24) && (mi <? 60) && (sec <? 60)
  then Some (((h * 60 + mi) * 60 + sec) * 1000 + ms)
  else None.

Definition Date_parse (s : string) : option Z :=
  '(y, s) ← number 4 0 s;
  s ← expect "-" s;
  '(m, s) ← number 2 0 s;
  s ← expect "-" s;
  '(d, s) ← number 2 0 s;
  if (1 <=? m) && (m <=? 12) && (1 <=? d) && (d <=? days_in_month y m) then
    let day := days_from_civil y m d in
    if String.eqb s "" then Some (day * day_ms)
    else (fun time => day * day_ms + time) <$> parse_time s
  else None.

(** *** The query of a request target *)

Fixpoint percent_decode (s : string) : string :=
  match s with
  | EmptyString => EmptyString
  | String a s' =>
      let plain := String (if Ascii.eqb a "+" then " "%char else a) (percent_decode s') in
      if Ascii.eqb a "%" then
        match s' with
        | String x (String y s'') =>
            match digit_value 16 x, digit_value 16 y with
            | Some h, Some l =>
                String (ascii_of_nat (Z.to_nat (16 * h + l))) (percent_decode s'')
            | _, _ => plain
            end
        | _ => plain
        end
      else plain
  end.

(** The text before the first [c], and the text after it if there is one. *)
Fixpoint cut (c : ascii) (s : string) : string * option string :=
  match s with
  | EmptyString => (EmptyString, None)
  | String a s' =>
      if Ascii.eqb a c then (EmptyString, Some s')
      else let '(h, t) := cut c s' in (String a h, t)
  end.

Definition query_pairs (url : string) : list (string * string) :=
  match snd (cut "?" (fst (cut "#" url))) with
  | None => []
  | Some q =>
      map (fun p => let '(k, v) := cut "=" p in
                    (percent_decode k, percent_decode (default "" v)))
          (List.filter (fun p => negb (String.eqb p "")) (split "&" q))
  end.

Definition searchParams_get (url name : string) : option string :=
  snd <$> List.find (fun p => String.eqb (fst p) name) (query_pairs url).

End Utc.

Definition node_utc : Runtime :=
  {| Date_parse := Utc.Date_parse;
     getMonth := Utc.getMonth;
     setMonth := Utc.setMonth;
     toISOString := Utc.toISOString;
     searchParams_get := Utc.searchParams_get;
     __dirname := "/srv/personal_training" |}.

(** ** Requests in the statements below *)

(** [body.k] when reading it does not throw. *)
Definition field (b : body) (k : string) : option json :=
  match b with
  | Obj o => o !! k
  | BadJson | NullBody => None
  end.

Definition post_json (url : string) (o : gmap string json) : request :=
  {| method := "POST"; url := url; reqBody := Obj o |}.

Definition get (url : string) : request :=
  {| method := "GET"; url := url; reqBody := Obj ∅ |}.

(** ** How a request can change the store

    One constructor for each way a handler writes the store; [change e r d d']
    holds when [d'] can be the store after request [r] on store [d]
    ([handleAPI_change] below proves that it covers the router). *)

Section Change.
Context `{Runtime}.

Inductive change (e : env) (r : request) (d : db) : db -> Prop :=
  | change_nothing :
      change e r d d
  | change_clients_refreshed :
      change e r d (with_clients (map fst (map (refresh (clock e 0)) (clients d))) d)
  | change_client_added c :
      url r = "/api/clients" -> method r = "POST" ->
      Client.id c = toString36 (clock e 0) ->
      change e r d (with_clients (clients d ++ [c]) d)
  | change_program_added p :
      url r = "/api/programs" -> method r = "POST" ->
      Program.id p = toString36 (clock e 0) ->
      change e r d (with_programs (programs d ++ [p]) d)
  | change_ticket_added k :
      url r = "/api/support/create" -> method r = "POST" ->
      Ticket.id k = toString36 (clock e 0) ->
      Ticket.status k = Some (JStr "open") ->
      change e r d (with_tickets (tickets d ++ [k]) d)
  | change_message_added i t m :
      tickets d !! i = Some t ->
      change e r d (with_tickets (<[i := Ticket.push m t]> (tickets d)) d)
  | change_status i t :
      method r = "PUT" -> starts_with "/api/tickets/" (url r) = true ->
      tickets d !! i = Some t ->
      change e r d
        (with_tickets (<[i := update_status e (field (reqBody r) "status") t]> (tickets d)) d)
  | change_ticket_deleted i :
      change e r d (with_tickets (delete i (tickets d)) d)
  | change_recipe_added c :
      url r = "/api/recipes" -> method r = "POST" ->
      Recipe.id c = toString36 (clock e 0) ->
      change e r d (with_recipes (recipes d ++ [c]) d)
  | change_recipe_updated i c c' :
      recipes d !! i = Some c -> Recipe.id c' = Recipe.id c ->
      change e r d (with_recipes (<[i := c']> (recipes d)) d)
  | change_recipe_deleted i :
      change e r d (with_recipes (delete i (recipes d)) d).

End Change.

(** ** Predicates of the statements below *)

Definition open_or_closed (status : option json) : Prop :=
  status = Some (JStr "open") \/ status = Some (JStr "closed").

(** The status a request makes [PUT /api/tickets/:id] store on the ticket it
    finds: the [status] of the body when the request is routed there and the
    value is truthy. *)
Definition requested_status (r : request) : option json :=
  if String.eqb (method r) "PUT" && starts_with "/api/tickets/" (url r) then
    match field (reqBody r) "status" with
    | Some v => if truthy v then Some v else None
    | None => None
    end
  else None.

(** The clock readings from which the requests [POST url] of a sequence
    take their ids, in order. *)
Definition creations (url_ : string) (rs : list (env * request)) : list Z :=
  omap (fun er : env * request =>
          if String.eqb (url (snd er)) url_ && String.eqb (method (snd er)) "POST"
          then Some (clock (fst er) 0) else None) rs.

(** The value of a string of base-36 digits read after the value [acc]. *)
Fixpoint decode36 (s : string) (acc : Z) : Z :=
  match s with
  | EmptyString => acc
  | String a s' => decode36 s' (36 * acc + default 0 (digit_value 36 a))
  end.

(** The ids of each collection, in order, are among the base-36 renderings
    of the clock readings of the requests that created entities in it. *)
Definition ids_from_clock `{Runtime} (rs : list (env * request)) (d : db) : Prop :=
  (Client.id <$> clients d) `sublist_of` (toString36 <$> creations "/api/clients" rs)
  /\ (Program.id <$> programs d) `sublist_of` (toString36 <$> creations "/api/programs" rs)
  /\ (Ticket.id <$> tickets d)
       `sublist_of` (toString36 <$> creations "/api/support/create" rs)
  /\ (Recipe.id <$> recipes d) `sublist_of` (toString36 <$> creations "/api/recipes" rs).

(** [p] is [root] or lies below it; both are normalized absolute paths. *)
Definition under (root p : string) : bool :=
  String.eqb p root || starts_with (root +:+ "/") p.

(** A segment [path.normalize] keeps as it is: not empty, not [.] or [..],
    and without a slash. *)
Definition no_slash (s : string) : Prop := index_of "/" s = None.

Definition proper (s : string) : Prop :=
  s <> "" /\ s <> "." /\ s <> ".." /\ no_slash s.

(** What [GET /api/clients] may change of a client: [c'] is [c] but for
    [daysLeft], which is [null] or a number that is not negative, and for
    [active], which can only go from true to false. *)
Definition refreshed_from (c c' : Client.t) : Prop :=
  Client.id c' = Client.id c /\ Client.name c' = Client.name c
  /\ Client.email c' = Client.email c /\ Client.startDate c' = Client.startDate c
  /\ Client.duration c' = Client.duration c
  /\ (Client.active c' = true -> Client.active c = true)
  /\ (Client.daysLeft c' = Some JNull
      \/ exists days, 0 <= days /\ Client.daysLeft c' = Some (JNum days)).

(** [t'] is the ticket [t] later on: the same id, credentials and creation
    time, and the messages of [t] followed by the ones added since. *)
Definition same_thread (t t' : Ticket.t) : Prop :=
  Ticket.id t' = Ticket.id t /\ Ticket.email t' = Ticket.email t
  /\ Ticket.password t' = Ticket.password t /\ Ticket.created t' = Ticket.created t
  /\ Ticket.messages t `prefix_of` Ticket.messages t'.

(** Every character of [s] satisfies [p]. *)
Fixpoint all_chars (p : ascii -> bool) (s : string) : bool :=
  match s with
  | EmptyString => true
  | String a s' => p a && all_chars p s'
  end.

(** ** Sample data for the concrete checks *)

Module Sample.

(** A clock that starts at [t] and advances one millisecond per reading; a
    disk that accepts every write and holds no file. *)
Definition at_time (t : Z) : env :=
  {| clock := fun k => t + Z.of_nat k;
     writeFileSync := fun _ _ => true;
     readFile := fun _ => None |}.

(** 2024-11-02T06:00:00Z *)
Definition e0 : env := at_time 1730527200000.

(** The same with a disk that refuses every write. *)
Definition e_full : env :=
  {| clock := clock e0; writeFileSync := fun _ _ => false; readFile := readFile e0 |}.

Definition ticket (id : string) (status : string) : Ticket.t :=
  {| Ticket.id := id; Ticket.email := JStr "ann@example.org";
     Ticket.password := JStr "s3cret"; Ticket.created := "2024-11-01T10:00:00.000Z";
     Ticket.status := Some (JStr status); Ticket.messages := [] |}.

(** A store holding one open ticket, [t1], and one closed ticket, [t2]. *)
Definition d_tickets : db := with_tickets [ticket "t1" "open"; ticket "t2" "closed"] initDB.

Definition put_status (id status : string) : request :=
  {| method := "PUT"; url := "/api/tickets/" +:+ id;
     reqBody := Obj {[ "status" := JStr status ]} |}.

(** Three tickets, two of them with the credentials of Ann. *)
Definition user_ticket (id email created : string) : Ticket.t :=
  {| Ticket.id := id; Ticket.email := JStr email; Ticket.password := JStr "s3cret";
     Ticket.created := created; Ticket.status := Some (JStr "open");
     Ticket.messages := [] |}.

Definition d_user : db :=
  with_tickets
    [user_ticket "u1" "ann@example.org" "2024-11-01T10:00:00.000Z";
     user_ticket "u2" "ann@example.org" "2024-11-02T09:30:00.000Z";
     user_ticket "u3" "bob@example.org" "2024-11-03T08:00:00.000Z"]
    initDB.

(** A client who started on 15 January 2024 for [duration] months. *)
Definition client (duration : json) : Client.t :=
  {| Client.id := "m2zr7pc0"; Client.name := JStr "Ann";
     Client.email := JStr "ann@example.org"; Client.startDate := JStr "2024-01-15";
     Client.active := true; Client.duration := duration; Client.daysLeft := None |}.

Definition new_client (duration : json) : request :=
  post_json "/api/clients"
    {[ "name" := JStr "Ann"; "email" := JStr "ann@example.org";
       "startDate" := JStr "2024-01-15"; "duration" := duration ]}.

Definition new_ticket : request :=
  post_json "/api/support/create"
    {[ "email" := JStr "ann@example.org"; "password" := JStr "s3cret";
       "message" := JStr "My plan does not load." ]}.

(** A disk that holds the page of the site and, next to the public
    directory, the database. *)
Definition e_disk : env :=
  {| clock := clock e0;
     writeFileSync := fun _ _ => true;
     readFile := fun p =>
       if String.eqb p "/srv/personal_training/public/index.html" then Some "<html></html>"
       else if String.eqb p "/srv/personal_training/database.json" then Some "{ admin ... }"
       else None |}.

Definition recipe (id title : string) : Recipe.t :=
  {| Recipe.id := id; Recipe.title := JStr title; Recipe.ingredients := JStr "leaves";
     Recipe.instructions := JStr "toss"; Recipe.image := JNull |}.

Definition d_recipes : db := with_recipes [recipe "r1" "Salad"; recipe "r2" "Soup"] initDB.

End Sample.

(** * Properties

    Sanity checks of the runtime functions on known values come first. *)

Example toString36_now : toString36 1730527200000 = "m2zr7pc0".
Proof. vm_compute. reflexivity. Qed.

Example normalize_absolute : normalize "/../../etc//passwd" = "/etc/passwd".
Proof. reflexivity. Qed.

Example normalize_relative : normalize "a/../../b/./c/" = "../b/c/".
Proof. reflexivity. Qed.

Example extname_examples :
  extname "/a/b/index.HTML" = ".HTML" /\ extname "/a/.bashrc" = ""
  /\ extname "/a.b/c" = "" /\ extname "x/..a" = ".a" /\ extname "x/.." = "".
Proof. repeat split; reflexivity. Qed.

Example utc_iso : Utc.toISOString 1730527200123 = "2024-11-02T06:00:00.123Z".
Proof. vm_compute. reflexivity. Qed.

Example utc_parse :
  Utc.Date_parse "2024-11-02T06:00:00.123Z" = Some 1730527200123
  /\ Utc.Date_parse "2024-01-31" = Some 1706659200000
  /\ Utc.Date_parse "2023-02-29" = None
  /\ Utc.Date_parse "soon" = None.
Proof. vm_compute. repeat split; reflexivity. Qed.

(** 2024-01-31 plus one month is 31 February, that is 2 March 2024. *)
Example utc_setMonth :
  Utc.setMonth 1706659200000 (Utc.getMonth 1706659200000 + 1) = Utc.Date_parse "2024-03-02".
Proof. vm_compute. reflexivity. Qed.

Example utc_query :
  Utc.searchParams_get "/api/user/ticket?email=a%40b.c&password=p+q" "email" = Some "a@b.c"
  /\ Utc.searchParams_get "/api/user/ticket?email=a%40b.c&password=p+q" "password" = Some "p q"
  /\ Utc.searchParams_get "/api/user/ticket?email=" "email" = Some ""
  /\ Utc.searchParams_get "/api/user/ticket" "email" = None.
Proof. vm_compute. repeat split; reflexivity. Qed.

(** ** Routing *)

Lemma starts_with_neq p s c :
  starts_with p s = true -> starts_with p c = false -> String.eqb s c = false.
Proof.
  intros Hs Hc. destruct (String.eqb_spec s c) as [->|]; congruence.
Qed.

Ltac not_url Hu c := rewrite (starts_with_neq _ _ c Hu) by reflexivity.

Lemma route_put_ticket `{Runtime} e req d :
  method req = "PUT" -> starts_with "/api/tickets/" (url req) = true ->
  handleAPI e req d = put_ticket e (split "/" (url req) !! 3%nat) (reqBody req) d.
Proof.
  intros Hm Hu. unfold handleAPI. rewrite Hm, Hu. cbn -[split].
  rewrite !andb_false_r. reflexivity.
Qed.

Lemma route_post_message `{Runtime} e req d :
  method req = "POST" -> starts_with "/api/tickets/" (url req) = true ->
  split "/" (url req) !! 4%nat = Some "message" ->
  handleAPI e req d = post_message e (split "/" (url req) !! 3%nat) (reqBody req) d.
Proof.
  intros Hm Hu Hp. unfold handleAPI. rewrite Hm, Hu, Hp.
  not_url Hu "/api/login". not_url Hu "/api/clients". not_url Hu "/api/programs".
  not_url Hu "/api/tickets". not_url Hu "/api/support/create".
  reflexivity.
Qed.

Lemma starts_with_other p q s :
  starts_with p s = true -> starts_with p q || starts_with q p = false ->
  starts_with q s = false.
Proof.
  revert q s. induction p as [|a p IH]; intros q s Hp Hq; [discriminate|].
  destruct s as [|b s]; [discriminate|]. destruct q as [|c q].
  { cbn in Hq. discriminate. }
  cbn in Hp, Hq |- *.
  destruct (Ascii.eqb_spec a b) as [->|]; [|discriminate]. cbn in Hp.
  rewrite (Ascii.eqb_sym c b) in Hq.
  destruct (Ascii.eqb_spec c b) as [->|]; [|reflexivity].
  rewrite Ascii.eqb_refl in Hq. cbn in Hq |- *. eauto.
Qed.

Lemma route_get_user_ticket `{Runtime} e req d :
  method req = "GET" -> starts_with "/api/user/ticket" (url req) = true ->
  handleAPI e req d = get_user_ticket (url req) d.
Proof.
  intros Hm Hu. unfold handleAPI. rewrite Hm, Hu.
  not_url Hu "/api/login". not_url Hu "/api/clients". not_url Hu "/api/programs".
  not_url Hu "/api/tickets". not_url Hu "/api/recipes".
  rewrite (starts_with_other _ "/api/tickets/" _ Hu) by reflexivity.
  cbn. rewrite !andb_false_r. reflexivity.
Qed.

(** ** Ticket status changes *)

(** C2. [PUT /api/tickets/:id] on an existing ticket answers 200 and
    replaces the ticket in place.  With status "closed" on a ticket that is
    not closed, exactly one message is appended, from "admin" with the closing
    text; on a ticket that is closed, none.  With status "open" on a closed
    ticket exactly one message is appended, from "admin" with the reopening
    text, which differs from the closing text. *)
Theorem put_ticket_status_messages `{Runtime} e req d o i t :
  method req = "PUT" -> starts_with "/api/tickets/" (url req) = true ->
  reqBody req = Obj o ->
  find_ticket (split "/" (url req) !! 3%nat) d = Some (i, t) ->
  exists t',
    handleAPI e req d
      = (with_tickets (<[i := t']> (tickets d)) d, reply 200 (RSuccess true))
    /\ (o !! "status" = Some (JStr "closed") ->
        Ticket.status t <> Some (JStr "closed") ->
        Ticket.messages t'
          = Ticket.messages t
            ++ [{| Message.sender := JStr "admin"; Message.time := toISOString (clock e 0);
                   Message.text := Some (JStr closing_text);
                   Message.attachment := None |}])
    /\ (o !! "status" = Some (JStr "closed") ->
        Ticket.status t = Some (JStr "closed") ->
        Ticket.messages t' = Ticket.messages t)
    /\ (o !! "status" = Some (JStr "open") ->
        Ticket.status t = Some (JStr "closed") ->
        Ticket.messages t'
          = Ticket.messages t
            ++ [{| Message.sender := JStr "admin"; Message.time := toISOString (clock e 0);
                   Message.text := Some (JStr reopening_text);
                   Message.attachment := None |}])
    /\ closing_text <> reopening_text.
Proof.
  intros Hm Hu Hb Hf. rewrite route_put_ticket by assumption.
  unfold put_ticket. rewrite Hb. cbn [with_body]. rewrite Hf.
  exists (update_status e (o !! "status") t). split; [reflexivity|].
  unfold update_status. repeat split.
  - intros -> Hopen. cbn.
    assert (strict_eq (Some (or_default (Ticket.status t) (JStr "open")))
              (Some (JStr "closed")) = false) as ->.
    { unfold strict_eq. apply bool_decide_eq_false. intros [= Heq]. apply Hopen.
      destruct (Ticket.status t) as [v|]; cbn in Heq; [|discriminate].
      destruct (truthy v); congruence. }
    reflexivity.
  - intros -> ->. reflexivity.
  - intros -> ->. reflexivity.
  - discriminate.
Qed.

Lemma put_ticket_status_messages_witness :
  exists t',
    handleAPI (H := node_utc) Sample.e0 (Sample.put_status "t1" "closed") Sample.d_tickets
      = (with_tickets (<[0%nat := t']> (tickets Sample.d_tickets)) Sample.d_tickets,
         reply 200 (RSuccess true))
    /\ Ticket.messages t'
         = [{| Message.sender := JStr "admin"; Message.time := "2024-11-02T06:00:00.000Z";
               Message.text := Some (JStr "Destek talebiniz kapatıldı.");
               Message.attachment := None |}].
Proof.
  destruct (put_ticket_status_messages (H := node_utc) Sample.e0
              (Sample.put_status "t1" "closed") Sample.d_tickets
              {[ "status" := JStr "closed" ]} 0%nat (Sample.ticket "t1" "open")
              eq_refl eq_refl eq_refl eq_refl) as (t' & Hr & Hclose & _).
  exists t'. split; [exact Hr|]. apply Hclose; [reflexivity|discriminate].
Defined.

(** ** Messages *)

Lemma route_support_create `{Runtime} e req d :
  url req = "/api/support/create" -> method req = "POST" ->
  handleAPI e req d = post_support_create e (reqBody req) d.
Proof. intros Hu Hm. unfold handleAPI. rewrite Hu, Hm. reflexivity. Qed.

(** C10. [POST /api/tickets/:id/message] on an existing ticket with no
    [sender] in the body either rejects the request (400, nothing stored) or
    stores a message whose sender is "client"; and every message of the
    ticket that [POST /api/support/create] stores has sender "client". *)
Theorem default_sender_is_client `{Runtime} :
  (forall e req d o i t,
     method req = "POST" -> starts_with "/api/tickets/" (url req) = true ->
     split "/" (url req) !! 4%nat = Some "message" ->
     reqBody req = Obj o -> o !! "sender" = None ->
     find_ticket (split "/" (url req) !! 3%nat) d = Some (i, t) ->
     handleAPI e req d = (d, reply 400 (RError "text or file required"))
     \/ exists m,
          handleAPI e req d
            = (with_tickets (<[i := Ticket.push m t]> (tickets d)) d,
               reply 200 (RSuccess true))
          /\ Message.sender m = JStr "client")
  /\ (forall e req d,
        url req = "/api/support/create" -> method req = "POST" ->
        (exists message, handleAPI e req d = (d, reply 400 (RError message)))
        \/ exists k,
             handleAPI e req d
               = (with_tickets (tickets d ++ [k]) d, reply 201 (RTicket k))
             /\ (length (Ticket.messages k) <= 1)%nat
             /\ forall m, m ∈ Ticket.messages k -> Message.sender m = JStr "client").
Proof.
  split.
  - intros e req d o i t Hm Hu Hp Hb Hs Hf.
    rewrite route_post_message by assumption.
    unfold post_message. rewrite Hb. cbn [with_body].
    destruct (negb (truthy_opt (o !! "text")) && negb (truthy_opt (o !! "file")));
      [left; reflexivity|right].
    rewrite Hf, Hs. eexists. split; reflexivity.
  - intros e req d Hu Hm. rewrite route_support_create by assumption.
    unfold post_support_create, with_body.
    destruct (reqBody req) as [| |o]; [left; eauto..|].
    destruct (negb (truthy_opt (o !! "email")) || negb (truthy_opt (o !! "password")));
      [left; eauto|right].
    eexists. split; [reflexivity|].
    destruct (truthy_opt (o !! "message")
              || truthy_opt (o !! "file") && truthy_opt (o !! "fileName")); cbn.
    + split; [lia|]. intros m Hin. apply list_elem_of_singleton in Hin. subst m. reflexivity.
    + split; [lia|]. intros m Hin. inversion Hin.
Qed.

Lemma default_sender_is_client_witness :
  exists m,
    handleAPI (H := node_utc) Sample.e0
        (post_json "/api/tickets/t1/message" {[ "text" := JStr "hello" ]}) Sample.d_tickets
      = (with_tickets
           (<[0%nat := Ticket.push m (Sample.ticket "t1" "open")]> (tickets Sample.d_tickets))
           Sample.d_tickets,
         reply 200 (RSuccess true))
    /\ Message.sender m = JStr "client".
Proof.
  destruct (proj1 (default_sender_is_client (H := node_utc)) Sample.e0
              (post_json "/api/tickets/t1/message" {[ "text" := JStr "hello" ]})
              Sample.d_tickets {[ "text" := JStr "hello" ]} 0%nat (Sample.ticket "t1" "open"))
    as [Hbad|Hok]; try (vm_compute; reflexivity).
  - vm_compute in Hbad. discriminate Hbad.
  - exact Hok.
Defined.

(** C4, as amended.  On [POST /api/tickets/:id/message] a body with neither
    a text nor a file is answered 400 and the store is unchanged.  Otherwise,
    on an existing ticket, exactly one message is appended; it carries the
    text when the request has one, and the attachment when the request has
    [file] and [fileName] as non-empty strings and the disk accepts the
    write. *)
Theorem message_text_or_attachment `{Runtime} e req d :
  method req = "POST" -> starts_with "/api/tickets/" (url req) = true ->
  split "/" (url req) !! 4%nat = Some "message" ->
  (truthy_opt (field (reqBody req) "text") = false ->
   truthy_opt (field (reqBody req) "file") = false ->
   exists message, handleAPI e req d = (d, reply 400 (RError message)))
  /\ (forall o i t,
        reqBody req = Obj o ->
        find_ticket (split "/" (url req) !! 3%nat) d = Some (i, t) ->
        truthy_opt (o !! "text") = true \/ truthy_opt (o !! "file") = true ->
        exists m,
          handleAPI e req d
            = (with_tickets (<[i := Ticket.push m t]> (tickets d)) d,
               reply 200 (RSuccess true))
          /\ (truthy_opt (o !! "text") = true -> Message.text m = o !! "text")
          /\ (forall file fileName,
                o !! "file" = Some (JStr file) -> o !! "fileName" = Some (JStr fileName) ->
                file <> "" -> fileName <> "" ->
                (forall p data, writeFileSync e p data = true) ->
                Message.attachment m
                  = Some ("/uploads/" +:+ toString36 (clock e 1) +:+ "_"
                          +:+ strip_unsafe fileName))).
Proof.
  intros Hm Hu Hp. rewrite route_post_message by assumption. split.
  - intros Ht Hf. unfold post_message, with_body.
    destruct (reqBody req) as [| |o]; [eauto..|]. cbn [field] in Ht, Hf.
    rewrite Ht, Hf. cbn. eauto.
  - intros o i t Hb Hfind Hsome. unfold post_message. rewrite Hb. cbn [with_body].
    assert (negb (truthy_opt (o !! "text")) && negb (truthy_opt (o !! "file")) = false)
      as ->.
    { destruct Hsome as [-> | ->]; [reflexivity|apply andb_false_r]. }
    rewrite Hfind. eexists. split; [reflexivity|]. cbn. split.
    + intros ->. reflexivity.
    + intros file fileName -> -> Hfile HfileName Hdisk. cbn.
      destruct (String.eqb_spec file ""); [contradiction|].
      destruct (String.eqb_spec fileName ""); [contradiction|].
      cbn. rewrite Hdisk. reflexivity.
Qed.

Lemma message_text_or_attachment_witness :
  exists m,
    handleAPI (H := node_utc) Sample.e0
        (post_json "/api/tickets/t1/message"
           {[ "file" := JStr "data:text/plain;base64,aGk="; "fileName" := JStr "my note.txt" ]})
        Sample.d_tickets
      = (with_tickets
           (<[0%nat := Ticket.push m (Sample.ticket "t1" "open")]> (tickets Sample.d_tickets))
           Sample.d_tickets,
         reply 200 (RSuccess true))
    /\ Message.attachment m = Some "/uploads/m2zr7pc1_mynote.txt".
Proof.
  destruct (proj2 (message_text_or_attachment (H := node_utc) Sample.e0
              (post_json "/api/tickets/t1/message"
                 {[ "file" := JStr "data:text/plain;base64,aGk=";
                    "fileName" := JStr "my note.txt" ]})
              Sample.d_tickets eq_refl eq_refl eq_refl)
              {[ "file" := JStr "data:text/plain;base64,aGk=";
                 "fileName" := JStr "my note.txt" ]}
              0%nat (Sample.ticket "t1" "open"))
    as (m & Hr & _ & Ha); try (vm_compute; reflexivity).
  { right. vm_compute. reflexivity. }
  exists m. split; [exact Hr|].
  rewrite (Ha "data:text/plain;base64,aGk=" "my note.txt");
    try (vm_compute; reflexivity); discriminate.
Defined.

(** C4, the claim as stated fails: with a file and a file name but no text,
    on a disk that refuses the write, the request is accepted and the message
    stored has neither a text nor an attachment. *)
Lemma message_with_neither_text_nor_attachment :
  handleAPI (H := node_utc) Sample.e_full
      (post_json "/api/tickets/t1/message"
         {[ "file" := JStr "aGk="; "fileName" := JStr "note.txt" ]})
      Sample.d_tickets
    = (with_tickets
         [Ticket.push
            {| Message.sender := JStr "client"; Message.time := "2024-11-02T06:00:00.000Z";
               Message.text := None; Message.attachment := None |}
            (Sample.ticket "t1" "open");
          Sample.ticket "t2" "closed"]
         Sample.d_tickets,
       reply 200 (RSuccess true)).
Proof. vm_compute. reflexivity. Qed.

(** The same happens without any failure when the body has a [file] but no
    [fileName]: the guard tests [file] alone, the attachment needs both. *)
Example message_file_without_name :
  handleAPI (H := node_utc) Sample.e0
      (post_json "/api/tickets/t1/message" {[ "file" := JStr "aGk=" ]})
      Sample.d_tickets
    = (with_tickets
         [Ticket.push
            {| Message.sender := JStr "client"; Message.time := "2024-11-02T06:00:00.000Z";
               Message.text := None; Message.attachment := None |}
            (Sample.ticket "t1" "open");
          Sample.ticket "t2" "closed"]
         Sample.d_tickets,
       reply 200 (RSuccess true)).
Proof. vm_compute. reflexivity. Qed.

(** C8. When the disk refuses the write of the attachment, [POST
    /api/support/create] still answers 201 with the ticket and stores it,
    its first message carrying no attachment; and [POST
    /api/tickets/:id/message] still answers 200 with [success: true] and
    stores the message without an attachment. *)
Theorem attachment_failure_is_caught `{Runtime} e req d o file fileName :
  method req = "POST" -> reqBody req = Obj o ->
  o !! "file" = Some (JStr file) -> o !! "fileName" = Some (JStr fileName) ->
  file <> "" -> fileName <> "" ->
  (forall p data, writeFileSync e p data = false) ->
  (url req = "/api/support/create" ->
   truthy_opt (o !! "email") = true -> truthy_opt (o !! "password") = true ->
   exists k m,
     handleAPI e req d = (with_tickets (tickets d ++ [k]) d, reply 201 (RTicket k))
     /\ Ticket.messages k = [m]
     /\ Message.attachment m = None)
  /\ (starts_with "/api/tickets/" (url req) = true ->
      split "/" (url req) !! 4%nat = Some "message" ->
      forall i t,
        find_ticket (split "/" (url req) !! 3%nat) d = Some (i, t) ->
        exists m,
          handleAPI e req d
            = (with_tickets (<[i := Ticket.push m t]> (tickets d)) d,
               reply 200 (RSuccess true))
          /\ Message.attachment m = None).
Proof.
  intros Hm Hb Hfile HfileName Hf Hn Hdisk.
  assert (truthy_opt (o !! "file") = true) as Htf.
  { rewrite Hfile. cbn. destruct (String.eqb_spec file ""); [contradiction|reflexivity]. }
  assert (truthy_opt (o !! "fileName") = true) as Htn.
  { rewrite HfileName. cbn.
    destruct (String.eqb_spec fileName ""); [contradiction|reflexivity]. }
  assert (forall k, save_attachment e k (o !! "file") (o !! "fileName") = None) as Hsave.
  { intros k. rewrite Hfile, HfileName. unfold save_attachment. rewrite Hdisk. reflexivity. }
  split.
  - intros Hu He Hp. rewrite route_support_create by assumption.
    unfold post_support_create. rewrite Hb. cbn [with_body].
    rewrite He, Hp, Htf, Htn, Hsave, orb_true_r. cbn.
    do 2 eexists. split; [reflexivity|]. split; reflexivity.
  - intros Hu Hp i t Hfind. rewrite route_post_message by assumption.
    unfold post_message. rewrite Hb. cbn [with_body].
    rewrite Htf, Htn, Hsave, Hfind, andb_false_r. cbn.
    eexists. split; reflexivity.
Qed.

Lemma attachment_failure_is_caught_witness :
  exists m,
    handleAPI (H := node_utc) Sample.e_full
        (post_json "/api/tickets/t1/message"
           {[ "text" := JStr "see the file"; "file" := JStr "aGk=";
              "fileName" := JStr "note.txt" ]})
        Sample.d_tickets
      = (with_tickets
           (<[0%nat := Ticket.push m (Sample.ticket "t1" "open")]> (tickets Sample.d_tickets))
           Sample.d_tickets,
         reply 200 (RSuccess true))
    /\ Message.attachment m = None.
Proof.
  refine (proj2 (attachment_failure_is_caught (H := node_utc) Sample.e_full
            (post_json "/api/tickets/t1/message"
               {[ "text" := JStr "see the file"; "file" := JStr "aGk=";
                  "fileName" := JStr "note.txt" ]})
            Sample.d_tickets
            {[ "text" := JStr "see the file"; "file" := JStr "aGk=";
               "fileName" := JStr "note.txt" ]}
            "aGk=" "note.txt" eq_refl eq_refl _ _ _ _ _) eq_refl eq_refl
            0%nat (Sample.ticket "t1" "open") _);
    try (vm_compute; reflexivity); discriminate.
Defined.

(** ** Recipes *)

Lemma digits36_not_empty fuel n acc : digits36 fuel n acc <> "".
Proof.
  revert n acc. induction fuel as [|fuel IH]; intros n acc; cbn; [discriminate|].
  destruct (n <? 36); [discriminate|apply IH].
Qed.

Lemma toString36_not_empty n : toString36 n <> "".
Proof.
  unfold toString36. destruct (n <? 0); [discriminate|apply digits36_not_empty].
Qed.

(** C9. [POST /api/recipes] with the body [{title: "Salad"}] answers 201
    with a non-empty id and appends the recipe with that id, the title
    "Salad", empty ingredients and instructions and a [null] image; a [GET
    /api/recipes] on the resulting store answers 200 with a collection that
    contains this recipe. *)
Theorem post_recipe_then_get `{Runtime} e e' d :
  let id := toString36 (clock e 0) in
  let salad :=
    {| Recipe.id := id; Recipe.title := JStr "Salad"; Recipe.ingredients := JStr "";
       Recipe.instructions := JStr ""; Recipe.image := JNull |} in
  let d' := with_recipes (recipes d ++ [salad]) d in
  handleAPI e (post_json "/api/recipes" {[ "title" := JStr "Salad" ]}) d
    = (d', reply 201 (RId id))
  /\ id <> ""
  /\ exists l, handleAPI e' (get "/api/recipes") d' = (d', reply 200 (RRecipes l))
               /\ salad ∈ l.
Proof.
  intros id salad d'. split; [|split].
  - unfold handleAPI, post_json. cbn -[toString36].
    unfold post_recipes, with_body.
    rewrite !lookup_singleton_eq.
    rewrite !lookup_singleton_ne by discriminate. reflexivity.
  - apply toString36_not_empty.
  - exists (recipes d'). split; [reflexivity|].
    cbn. set_solver.
Qed.

(** ** Looking a ticket up by its credentials *)

Section SortFacts.
Context {A : Type} (compare : A -> A -> option Z) (key : A -> Z).

Lemma insert_sorted_not_nil x l : insert_sorted compare x l <> [].
Proof. destruct l; cbn; [discriminate|]. destruct (before compare x a); discriminate. Qed.

Lemma sort_nil l : sort compare l = [] -> l = [].
Proof.
  destruct l as [|x l]; [reflexivity|]. cbn. intros Hs.
  destruct (insert_sorted_not_nil _ _ Hs).
Qed.

(** With a comparator that is the difference of two keys, later minus
    earlier argument, the first element of the sorted list is an element
    with the greatest key. *)
Lemma sort_head_greatest l t rest :
  (forall a b, a ∈ l -> b ∈ l -> compare a b = Some (key b - key a)) ->
  sort compare l = t :: rest ->
  t ∈ l /\ forall t', t' ∈ l -> key t' <= key t.
Proof.
  revert t rest. induction l as [|x l IH]; intros t rest Hcmp Hs; [discriminate|].
  cbn in Hs. destruct (sort compare l) as [|y sorted] eqn:Hsorted.
  - apply sort_nil in Hsorted. subst l. cbn in Hs. injection Hs as <- _.
    split; [left|]. intros t' Hin. apply list_elem_of_singleton in Hin. subst. lia.
  - destruct (IH y sorted) as [Hy Hmax]; [intros; apply Hcmp; right; assumption|reflexivity|].
    cbn in Hs. unfold before in Hs.
    rewrite (Hcmp x y) in Hs by (try left; right; assumption). cbn in Hs.
    destruct (Z.leb_spec (key y - key x) 0); injection Hs as <- _.
    + split; [left|]. intros t' Hin. apply elem_of_cons in Hin as [->|Hin]; [lia|].
      specialize (Hmax t' Hin). lia.
    + split; [right; assumption|]. intros t' Hin.
      apply elem_of_cons in Hin as [->|Hin]; [lia|]. apply Hmax, Hin.
Qed.

End SortFacts.

Lemma credentials_match_spec email password t :
  credentials_match (Some email) (Some password) t = true
  <-> Ticket.email t = JStr email /\ Ticket.password t = JStr password.
Proof.
  unfold credentials_match, strict_eq. cbn. rewrite andb_true_iff, !bool_decide_eq_true.
  split; intros [H1 H2]; split; congruence.
Qed.

(** C3, as amended.  [GET /api/user/ticket] with a non-empty email and a
    non-empty password never changes the store; when no ticket has both this
    email and this password it answers 404, and otherwise it answers 200 with
    a ticket that has them and whose [created] instant is the latest among
    the tickets that have them, provided their [created] fields are dates the
    runtime can parse (as are those the server writes). *)
Theorem user_ticket_is_latest `{Runtime} e req d email password :
  method req = "GET" -> starts_with "/api/user/ticket" (url req) = true ->
  searchParams_get (url req) "email" = Some email -> email <> "" ->
  searchParams_get (url req) "password" = Some password -> password <> "" ->
  let matches t := Ticket.email t = JStr email /\ Ticket.password t = JStr password in
  (forall t, t ∈ tickets d -> matches t -> is_Some (Date_parse (Ticket.created t))) ->
  ((forall t, t ∈ tickets d -> ~ matches t) ->
   handleAPI e req d = (d, reply 404 (RError "no tickets found")))
  /\ ((exists t, t ∈ tickets d /\ matches t) ->
      exists t at_t,
        handleAPI e req d = (d, reply 200 (RTicket t))
        /\ t ∈ tickets d /\ matches t
        /\ Date_parse (Ticket.created t) = Some at_t
        /\ forall t', t' ∈ tickets d -> matches t' ->
             exists at_t', Date_parse (Ticket.created t') = Some at_t' /\ at_t' <= at_t).
Proof.
  intros Hm Hu He Hne Hp Hnp matches Hvalid.
  rewrite route_get_user_ticket by assumption.
  unfold get_user_ticket. rewrite He, Hp. cbn [missing].
  destruct (String.eqb_spec email ""); [contradiction|].
  destruct (String.eqb_spec password ""); [contradiction|]. cbn [orb].
  set (matching := List.filter _ (tickets d)).
  assert (forall t, t ∈ matching <-> t ∈ tickets d /\ matches t) as Hmatching.
  { intros t. unfold matching. rewrite !list_elem_of_In, filter_In, credentials_match_spec.
    reflexivity. }
  set (key := fun t => default 0 (Date_parse (Ticket.created t))).
  assert (forall a b, a ∈ matching -> b ∈ matching ->
                      by_created_desc a b = Some (key b - key a)) as Hcmp.
  { intros a b Ha Hb. apply Hmatching in Ha as [Ha Ha'], Hb as [Hb Hb'].
    unfold by_created_desc, key.
    destruct (Hvalid a Ha Ha') as [x ->], (Hvalid b Hb Hb') as [y ->]. reflexivity. }
  split.
  - intros Hnone. assert (matching = []) as ->; [|reflexivity].
    destruct matching as [|t l]; [reflexivity|].
    destruct (Hnone t); apply (Hmatching t); left.
  - intros (t0 & Hin0 & Hm0).
    destruct (sort by_created_desc matching) as [|t rest] eqn:Hsort.
    { apply sort_nil in Hsort. assert (t0 ∈ matching) as Hin by (apply Hmatching; auto).
      rewrite Hsort in Hin. inversion Hin. }
    destruct (sort_head_greatest _ key _ _ _ Hcmp Hsort) as [Hin Hmax].
    apply Hmatching in Hin as [Hin Hmt].
    destruct (Hvalid t Hin Hmt) as [at_t Hat].
    exists t, at_t. repeat split; try assumption; try apply Hmt.
    intros t' Hin' Hm'. destruct (Hvalid t' Hin' Hm') as [at_t' Hat'].
    exists at_t'. split; [assumption|].
    specialize (Hmax t' (proj2 (Hmatching t') (conj Hin' Hm'))).
    unfold key in Hmax. rewrite Hat, Hat' in Hmax. exact Hmax.
Qed.

Lemma user_ticket_is_latest_witness :
  handleAPI (H := node_utc) Sample.e0
      (get "/api/user/ticket?email=ann%40example.org&password=s3cret") Sample.d_user
    = (Sample.d_user,
       reply 200 (RTicket (Sample.user_ticket "u2" "ann@example.org" "2024-11-02T09:30:00.000Z"))).
Proof.
  destruct (proj2 (user_ticket_is_latest (H := node_utc) Sample.e0
              (get "/api/user/ticket?email=ann%40example.org&password=s3cret")
              Sample.d_user "ann@example.org" "s3cret"
              eq_refl eq_refl eq_refl ltac:(discriminate) eq_refl ltac:(discriminate)
              ltac:(intros t Hin _; cbn in Hin;
                    repeat (apply elem_of_cons in Hin as [->|Hin]);
                    [vm_compute; eauto..|inversion Hin])))
    as (t & at_t & Hr & _).
  { exists (Sample.user_ticket "u1" "ann@example.org" "2024-11-01T10:00:00.000Z").
    split; [left|split; reflexivity]. }
  rewrite Hr. vm_compute in Hr. injection Hr as <-. reflexivity.
Defined.

(** C3, the claim as stated fails: a query whose email is the empty string
    matches no ticket, and the answer is 400, not 404. *)
Lemma user_ticket_empty_email :
  (forall t, t ∈ tickets Sample.d_user -> Ticket.email t <> JStr "")
  /\ handleAPI (H := node_utc) Sample.e0
       (get "/api/user/ticket?email=&password=s3cret") Sample.d_user
     = (Sample.d_user, reply 400 (RError "email and password required")).
Proof.
  split; [|vm_compute; reflexivity].
  intros t Hin. cbn in Hin.
  repeat (apply elem_of_cons in Hin as [->|Hin]); [discriminate..|inversion Hin].
Qed.

(** ** Days left of a client *)

Lemma ceil_days_spec diff :
  exists days, ceil_days (Some diff) = Some days
               /\ day_ms * (days - 1) < diff <= day_ms * days.
Proof.
  exists (- (- diff / day_ms)). split; [reflexivity|].
  change day_ms with 86400000.
  pose proof (Z.div_mod (- diff) 86400000 ltac:(lia)).
  pose proof (Z.mod_pos_bound (- diff) 86400000 ltac:(lia)). lia.
Qed.

(** C1, as amended.  For a client whose [startDate] is a valid date and whose
    [duration] parses to a number of months, the end date being valid too,
    [GET /api/clients] answers with the client's [daysLeft] set to the
    ceiling of (end - now) / one day, replaced by 0 when negative; if the
    client was active and that ceiling is 0 or less, [active] is false in the
    answer and the change is in the store afterwards; if the ceiling is
    positive, [active] is as before. *)
Theorem clients_days_left `{Runtime} e d i c start months end_ :
  clients d !! i = Some c ->
  truthy (Client.startDate c) = true -> truthy (Client.duration c) = true ->
  new_Date (Client.startDate c) = Some start ->
  parseInt (Client.duration c) = Some months ->
  setMonth start (getMonth start + months) = Some end_ ->
  exists days d' l c',
    day_ms * (days - 1) < end_ - clock e 0 <= day_ms * days
    /\ handleAPI e (get "/api/clients") d = (d', reply 200 (RClients l))
    /\ l !! i = Some c'
    /\ Client.daysLeft c' = Some (JNum (Z.max 0 days))
    /\ (Client.active c = true -> days <= 0 ->
        Client.active c' = false /\ clients d' !! i = Some c')
    /\ (0 < days -> Client.active c' = Client.active c).
Proof.
  intros Hi Hs Hd Hstart Hmonths Hend.
  destruct (ceil_days_spec (end_ - clock e 0)) as (days & Hceil & Hdays).
  assert (refresh (clock e 0) c
          = if Client.active c && (days <=? 0)
            then (Client.with_active false
                    (Client.with_daysLeft (JNum (Z.max 0 days)) c), true)
            else (Client.with_daysLeft (JNum (Z.max 0 days)) c, false)) as Hrefresh.
  { unfold refresh. rewrite Hs, Hd, Hstart, Hmonths. cbn [andb add_months].
    rewrite Hend. cbn [num_sub]. rewrite Hceil. cbn.
    destruct (Z.ltb_spec 0 days).
    - rewrite Z.max_r by lia. reflexivity.
    - rewrite Z.max_l by lia. reflexivity. }
  change (handleAPI e (get "/api/clients") d) with (get_clients e d).
  unfold get_clients.
  set (refreshed := map (refresh (clock e 0)) (clients d)).
  assert (refreshed !! i = Some (refresh (clock e 0) c)) as Hri.
  { unfold refreshed. change (map ?f ?l) with (f <$> l).
    rewrite list_lookup_fmap, Hi. reflexivity. }
  assert (map fst refreshed !! i = Some (fst (refresh (clock e 0) c))) as Hli.
  { change (map ?f ?l) with (f <$> l). rewrite list_lookup_fmap, Hri. reflexivity. }
  exists days. eexists. exists (map fst refreshed), (fst (refresh (clock e 0) c)).
  split; [exact Hdays|]. split; [reflexivity|]. split; [exact Hli|].
  rewrite Hrefresh. split; [|split].
  - destruct (Client.active c && (days <=? 0)); reflexivity.
  - intros Hactive Hexpired. rewrite Hactive.
    destruct (Z.leb_spec days 0); [|lia]. cbn. split; [reflexivity|].
    assert (existsb snd refreshed = true) as ->.
    { apply existsb_exists. exists (refresh (clock e 0) c). split.
      - apply list_elem_of_In, list_elem_of_lookup. eauto.
      - rewrite Hrefresh, Hactive. destruct (Z.leb_spec days 0); [reflexivity|lia]. }
    cbn. rewrite Hli, Hrefresh, Hactive. destruct (Z.leb_spec days 0); [reflexivity|lia].
  - intros Hpos. destruct (Z.leb_spec days 0); [lia|].
    rewrite andb_false_r. reflexivity.
Qed.

(** On 14 April 2024 at noon a client who started on 15 January for three
    months has one day left. *)
Lemma clients_days_left_witness :
  exists d' c',
    handleAPI (H := node_utc) (Sample.at_time 1713096000000) (get "/api/clients")
        (with_clients [Sample.client (JNum 3)] initDB)
      = (d', reply 200 (RClients [c']))
    /\ Client.daysLeft c' = Some (JNum 1) /\ Client.active c' = true.
Proof.
  destruct (clients_days_left (H := node_utc) (Sample.at_time 1713096000000)
              (with_clients [Sample.client (JNum 3)] initDB) 0%nat
              (Sample.client (JNum 3)) 1705276800000 3 1713139200000
              eq_refl eq_refl eq_refl eq_refl eq_refl eq_refl)
    as (days & d' & l & c' & Hdays & Hr & Hl & Hleft & _ & Hactive).
  assert (days = 1) as -> by (cbn in Hdays; change day_ms with 86400000 in Hdays; lia).
  exists d', c'. rewrite Hr. vm_compute in Hr. injection Hr as _ <-.
  cbn in Hl. injection Hl as <-. repeat split.
Defined.

(** C1, the claim as stated fails: a client created with the duration
    "abc" has a start date and a duration; every read sets its [daysLeft] to
    0, yet it stays active and the store is not written. *)
Lemma clients_unparsable_duration :
  let d := with_clients [Sample.client (JStr "abc")] initDB in
  run (H := node_utc) [(Sample.e0, Sample.new_client (JStr "abc"))] initDB = d
  /\ handleAPI (H := node_utc) Sample.e0 (get "/api/clients") d
     = (d, reply 200
            (RClients
               [{| Client.id := "m2zr7pc0"; Client.name := JStr "Ann";
                   Client.email := JStr "ann@example.org";
                   Client.startDate := JStr "2024-01-15";
                   Client.active := true; Client.duration := JStr "abc";
                   Client.daysLeft := Some (JNum 0) |}])).
Proof. vm_compute. split; reflexivity. Qed.

(** ** Every request changes the store in one of the listed ways *)

Lemma find_ticket_lookup `{Runtime} id d i t :
  find_ticket id d = Some (i, t) -> tickets d !! i = Some t.
Proof. unfold find_ticket. intros Hf. apply list_find_Some in Hf. tauto. Qed.

Lemma find_recipe_lookup `{Runtime} id d i c :
  find_recipe id d = Some (i, c) -> recipes d !! i = Some c.
Proof. unfold find_recipe. intros Hf. apply list_find_Some in Hf. tauto. Qed.

Lemma route_true a b x y :
  String.eqb a x && String.eqb b y = true -> a = x /\ b = y.
Proof.
  intros Hr. apply andb_prop in Hr as [Ha Hb].
  apply String.eqb_eq in Ha, Hb. auto.
Qed.

Lemma handleAPI_change `{Runtime} e r d : change e r d (fst (requestHandler e r d)).
Proof.
  unfold requestHandler, handleAPI.
  repeat case_match; cbn [fst];
    repeat match goal with
           | Hr : String.eqb _ _ && String.eqb _ _ = true |- _ =>
               apply route_true in Hr as [? ?]
           | Hr : String.eqb _ _ && starts_with _ _ = true |- _ =>
               apply andb_prop in Hr as [Hr ?]; apply String.eqb_eq in Hr
           end;
    try apply change_nothing.
  - unfold post_login, with_body. repeat case_match; apply change_nothing.
  - unfold get_clients. cbn zeta. case_match; cbn [fst];
      [apply change_clients_refreshed|apply change_nothing].
  - unfold post_clients, with_body. repeat case_match; cbn [fst]; try apply change_nothing.
    apply change_client_added; auto.
  - unfold post_programs, with_body. repeat case_match; cbn [fst]; try apply change_nothing.
    apply change_program_added; auto.
  - unfold post_support_create, with_body.
    destruct (reqBody r); cbn [fst]; try apply change_nothing.
    destruct (negb _ || negb _); cbn [fst]; try apply change_nothing.
    apply change_ticket_added; auto; destruct (_ || _); reflexivity.
  - unfold get_ticket. repeat case_match; apply change_nothing.
  - unfold post_message, with_body.
    destruct (reqBody r); cbn [fst]; try apply change_nothing.
    destruct (negb _ && negb _); cbn [fst]; try apply change_nothing.
    destruct (find_ticket _ _) as [[i t]|] eqn:Hf; cbn [fst]; try apply change_nothing.
    apply change_message_added. eapply find_ticket_lookup, Hf.
  - unfold put_ticket, with_body.
    destruct (reqBody r) eqn:Hb; cbn [fst]; try apply change_nothing.
    destruct (find_ticket _ _) as [[i t]|] eqn:Hf; cbn [fst]; try apply change_nothing.
    change (o !! "status") with (field (Obj o) "status"). rewrite <- Hb.
    apply change_status; auto. eapply find_ticket_lookup, Hf.
  - unfold delete_ticket.
    destruct (find_ticket _ _) as [[i t]|]; cbn [fst];
      [apply change_ticket_deleted|apply change_nothing].
  - unfold post_recipes, with_body. repeat case_match; cbn [fst]; try apply change_nothing.
    apply change_recipe_added; auto.
  - unfold put_recipe, with_body.
    destruct (reqBody r); cbn [fst]; try apply change_nothing;
      destruct (find_recipe _ _) as [[i c]|] eqn:Hf; cbn [fst]; try apply change_nothing.
    eapply change_recipe_updated; [eapply find_recipe_lookup, Hf|reflexivity].
  - unfold delete_recipe.
    destruct (find_recipe _ _) as [[i c]|]; cbn [fst];
      [apply change_recipe_deleted|apply change_nothing].
  - unfold get_user_ticket. repeat case_match; apply change_nothing.
Qed.

(** ** The status of stored tickets *)

Lemma run_snoc `{Runtime} rs e r d :
  run (rs ++ [(e, r)]) d = fst (requestHandler e r (run rs d)).
Proof. unfold run. rewrite fold_left_app. reflexivity. Qed.

Lemma update_status_status `{Runtime} e v t :
  Ticket.status (update_status e v t) = if truthy_opt v then v else Ticket.status t.
Proof. unfold update_status. repeat case_match; reflexivity. Qed.

(** C6, as amended.  From the store [initDB] writes, after any sequence of
    requests in which every status that a [PUT /api/tickets/:id] carries is
    "open" or "closed" (or is absent or falsy, and then ignored), every
    stored ticket has the status "open" or "closed". *)
Theorem tickets_open_or_closed `{Runtime} rs :
  (forall er v, er ∈ rs -> requested_status (snd er) = Some v ->
                v = JStr "open" \/ v = JStr "closed") ->
  forall t, t ∈ tickets (run rs initDB) -> open_or_closed (Ticket.status t).
Proof.
  intros Hrs. apply Forall_forall.
  induction rs as [|[e r] rs IH] using rev_ind; [constructor|].
  rewrite run_snoc.
  assert (Forall (fun t => open_or_closed (Ticket.status t)) (tickets (run rs initDB)))
    as Hinv.
  { apply IH. intros er v Hin. apply Hrs, elem_of_app. left. exact Hin. }
  destruct (handleAPI_change e r (run rs initDB))
    as [ | |c Hu Hm Hid|p Hu Hm Hid|k Hu Hm Hid Hst|i t m Hl|i t Hm Hu Hl|i
        |c Hu Hm Hid|i c c' Hl Hid|i];
    cbn [tickets with_tickets with_clients with_programs with_recipes]; try exact Hinv.
  - apply Forall_app. split; [exact Hinv|]. constructor; [|constructor].
    left. assumption.
  - apply Forall_insert; [exact Hinv|]. cbn.
    eapply (proj1 (Forall_forall _ _) Hinv), list_elem_of_lookup_2. eassumption.
  - apply Forall_insert; [exact Hinv|]. rewrite update_status_status.
    destruct (truthy_opt (field (reqBody r) "status")) eqn:Htruthy.
    + destruct (field (reqBody r) "status") as [v|] eqn:Hfield; [|discriminate].
      destruct (Hrs (e, r) v) as [-> | ->]; [apply elem_of_app; right; left| |left|right];
        try reflexivity.
      unfold requested_status. cbn [snd].
      rewrite Hm, Hu, Hfield. cbn in Htruthy |- *. rewrite Htruthy. reflexivity.
    + eapply (proj1 (Forall_forall _ _) Hinv), list_elem_of_lookup_2. eassumption.
  - apply Forall_delete. exact Hinv.
Qed.

Lemma tickets_open_or_closed_witness :
  Forall (fun t => open_or_closed (Ticket.status t))
    (tickets (run (H := node_utc)
                [(Sample.e0, Sample.new_ticket);
                 (Sample.e0, Sample.put_status "m2zr7pc0" "closed")] initDB)).
Proof.
  apply Forall_forall.
  apply (tickets_open_or_closed (H := node_utc)
           [(Sample.e0, Sample.new_ticket);
            (Sample.e0, Sample.put_status "m2zr7pc0" "closed")]).
  intros er v Hin Hv.
  repeat (apply elem_of_cons in Hin as [->|Hin]); [| |inversion Hin];
    vm_compute in Hv; [discriminate|]. injection Hv as <-. right. reflexivity.
Defined.

(** C6, the claim as stated fails: the handler stores whatever truthy status
    the body carries. *)
Lemma ticket_status_pending :
  map Ticket.status
    (tickets (run (H := node_utc)
                [(Sample.e0, Sample.new_ticket);
                 (Sample.e0, Sample.put_status "m2zr7pc0" "pending")] initDB))
  = [Some (JStr "pending")]
  /\ ~ open_or_closed (Some (JStr "pending")).
Proof.
  split; [vm_compute; reflexivity|]. intros [Hs|Hs]; discriminate Hs.
Qed.

(** ** Ids *)

Lemma digit_char_spec d :
  0 <= d < 36 -> digit_value 36 (digit_char d) = Some d /\ digit_char d <> "-"%char.
Proof.
  intros Hd. assert (exists k : nat, d = Z.of_nat k /\ (k < 36)%nat) as (k & -> & Hk).
  { exists (Z.to_nat d). lia. }
  do 36 (destruct k as [|k]; [vm_compute; split; [reflexivity|discriminate]|]). lia.
Qed.

Lemma decode36_digits36 fuel n acc :
  0 <= n < 2 ^ Z.of_nat (S fuel) ->
  decode36 (digits36 fuel n acc) 0 = decode36 acc n.
Proof.
  revert n acc. induction fuel as [|fuel IH]; intros n acc Hn.
  - change (2 ^ Z.of_nat 1) with 2 in Hn. cbn [digits36 decode36].
    rewrite Z.mod_small by lia.
    destruct (digit_char_spec n) as [-> _]; [lia|]. reflexivity.
  - cbn [digits36]. destruct (Z.ltb_spec n 36).
    + cbn [decode36]. destruct (digit_char_spec n) as [-> _]; [lia|]. reflexivity.
    + rewrite IH.
      * cbn [decode36].
        destruct (digit_char_spec (n mod 36)) as [-> _];
          [apply Z.mod_pos_bound; lia|].
        cbn [default]. f_equal. unfold id. pose proof (Z.div_mod n 36 ltac:(lia)). lia.
      * rewrite Nat2Z.inj_succ, Z.pow_succ_r in Hn by lia. split.
        -- apply Z.div_pos; lia.
        -- apply Z.div_lt_upper_bound; lia.
Qed.

Lemma enough_fuel n : 0 <= n -> n < 2 ^ Z.of_nat (S (Z.to_nat (Z.log2 n))).
Proof.
  intros Hn. rewrite Nat2Z.inj_succ, Z2Nat.id by apply Z.log2_nonneg.
  destruct (Z.eq_dec n 0) as [->|]; [reflexivity|].
  apply Z.log2_spec. lia.
Qed.

Lemma digits36_head fuel n acc :
  0 <= n -> exists d rest, 0 <= d < 36 /\ digits36 fuel n acc = String (digit_char d) rest.
Proof.
  revert n acc. induction fuel as [|fuel IH]; intros n acc Hn; cbn [digits36].
  - exists (n mod 36), acc. split; [apply Z.mod_pos_bound; lia|reflexivity].
  - destruct (Z.ltb_spec n 36).
    + exists n, acc. split; [lia|reflexivity].
    + apply IH, Z.div_pos; lia.
Qed.

#[global] Instance toString36_inj : Inj (=) (=) toString36.
Proof.
  assert (forall n, 0 <= n -> decode36 (digits36 (Z.to_nat (Z.log2 n)) n "") 0 = n)
    as Hdecode.
  { intros n Hn. rewrite decode36_digits36; [reflexivity|].
    split; [exact Hn|apply enough_fuel, Hn]. }
  assert (forall n m, n < 0 -> 0 <= m -> toString36 n <> toString36 m) as Hsign.
  { intros n m Hn Hm. unfold toString36.
    destruct (Z.ltb_spec n 0); [|lia]. destruct (Z.ltb_spec m 0); [lia|].
    destruct (digits36_head (Z.to_nat (Z.log2 m)) m "" Hm) as (d & rest & Hd & ->).
    intros [= Heq]. destruct (digit_char_spec d Hd) as [_ Hne]. congruence. }
  intros n m Heq.
  destruct (Z.ltb_spec n 0) as [Hn|Hn], (Z.ltb_spec m 0) as [Hm|Hm].
  - unfold toString36 in Heq.
    destruct (Z.ltb_spec n 0); [|lia]. destruct (Z.ltb_spec m 0); [|lia].
    injection Heq as Heq. apply (f_equal (fun s => decode36 s 0)) in Heq.
    rewrite !Hdecode in Heq by lia. lia.
  - destruct (Hsign n m Hn Hm Heq).
  - destruct (Hsign m n Hm Hn (eq_sym Heq)).
  - unfold toString36 in Heq.
    destruct (Z.ltb_spec n 0); [lia|]. destruct (Z.ltb_spec m 0); [lia|].
    apply (f_equal (fun s => decode36 s 0)) in Heq.
    rewrite !Hdecode in Heq by lia. exact Heq.
Qed.

Lemma creations_snoc u rs e r :
  creations u (rs ++ [(e, r)])
  = creations u rs
    ++ (if String.eqb (url r) u && String.eqb (method r) "POST" then [clock e 0] else []).
Proof.
  unfold creations. rewrite omap_app. cbn.
  destruct (String.eqb (url r) u && String.eqb (method r) "POST"); reflexivity.
Qed.

Lemma refresh_id `{Runtime} now l :
  Client.id <$> map fst (map (refresh now) l) = Client.id <$> l.
Proof.
  induction l as [|c l IH]; [reflexivity|]. cbn. f_equal; [|exact IH].
  unfold refresh. repeat case_match; reflexivity.
Qed.

Lemma update_status_id `{Runtime} e v t :
  Ticket.id (update_status e v t) = Ticket.id t.
Proof. unfold update_status. repeat case_match; reflexivity. Qed.

Lemma replace_keeps_ids {A} (f : A -> string) (l : list A) (i : nat) x y :
  l !! i = Some x -> f y = f x -> f <$> <[i := y]> l = f <$> l.
Proof.
  intros Hl Hf. rewrite list_fmap_insert, Hf. apply list_insert_id.
  rewrite list_lookup_fmap, Hl. reflexivity.
Qed.

Lemma ids_from_clock_step `{Runtime} rs e r d d' :
  ids_from_clock rs d -> change e r d d' -> ids_from_clock (rs ++ [(e, r)]) d'.
Proof.
  intros (Hc & Hp & Ht & Hr) Hchange. unfold ids_from_clock.
  rewrite !creations_snoc, !fmap_app.
  destruct Hchange
    as [ | |c Hu Hm Hid|p Hu Hm Hid|k Hu Hm Hid Hst|i t m Hl|i t Hm Hu Hl|i
        |c Hu Hm Hid|i c c' Hl Hid|i];
    cbn [clients programs tickets recipes with_clients with_programs with_tickets
         with_recipes];
    rewrite ?refresh_id, ?fmap_app, ?list_fmap_delete;
    rewrite ?(replace_keeps_ids Ticket.id _ _ _ _ Hl) by (cbn; auto using update_status_id);
    rewrite ?(replace_keeps_ids Recipe.id _ _ _ _ Hl) by assumption;
    try rewrite Hu, Hm; cbn [String.eqb Ascii.eqb Bool.eqb andb fmap list_fmap];
    try rewrite Hid;
    repeat split;
    first [ apply sublist_inserts_r; assumption
          | apply sublist_app; [assumption|reflexivity]
          | apply sublist_inserts_r; etrans; [apply sublist_delete|assumption] ].
Qed.

Lemma ids_from_clock_run `{Runtime} rs : ids_from_clock rs (run rs initDB).
Proof.
  induction rs as [|[e r] rs IH] using rev_ind.
  - repeat split; apply sublist_nil_l.
  - rewrite run_snoc. exact (ids_from_clock_step _ _ _ _ _ IH (handleAPI_change _ _ _)).
Qed.

(** C7, as amended.  From the store [initDB] writes, after any sequence of
    requests (creations included) every id is the base-36 rendering of the
    clock reading taken when its entity was created; and in a collection
    whose creating requests all read different clock values the ids are
    pairwise different. *)
Theorem ids_unique_when_clock_differs `{Runtime} rs :
  let d := run rs initDB in
  (forall id, id ∈ Client.id <$> clients d ->
              exists t, t ∈ creations "/api/clients" rs /\ id = toString36 t)
  /\ (forall id, id ∈ Program.id <$> programs d ->
                 exists t, t ∈ creations "/api/programs" rs /\ id = toString36 t)
  /\ (forall id, id ∈ Ticket.id <$> tickets d ->
                 exists t, t ∈ creations "/api/support/create" rs /\ id = toString36 t)
  /\ (forall id, id ∈ Recipe.id <$> recipes d ->
                 exists t, t ∈ creations "/api/recipes" rs /\ id = toString36 t)
  /\ (NoDup (creations "/api/clients" rs) -> NoDup (Client.id <$> clients d))
  /\ (NoDup (creations "/api/programs" rs) -> NoDup (Program.id <$> programs d))
  /\ (NoDup (creations "/api/support/create" rs) -> NoDup (Ticket.id <$> tickets d))
  /\ (NoDup (creations "/api/recipes" rs) -> NoDup (Recipe.id <$> recipes d)).
Proof.
  intros d. destruct (ids_from_clock_run rs) as (Hc & Hp & Ht & Hr). fold d in Hc, Hp, Ht, Hr.
  assert (forall ids ts id, ids `sublist_of` (toString36 <$> ts) -> id ∈ ids ->
                            exists t, t ∈ ts /\ id = toString36 t) as Hfrom.
  { intros ids ts id Hsub Hin. apply (elem_of_sublist _ _ _ Hin) in Hsub.
    apply list_elem_of_fmap in Hsub as (t & -> & Ht'). eauto. }
  assert (forall ids ts, ids `sublist_of` (toString36 <$> ts) -> NoDup ts -> NoDup ids)
    as Hnodup.
  { intros ids ts Hsub Hts. eapply sublist_NoDup; [|exact Hsub].
    apply NoDup_fmap_2; [apply toString36_inj|exact Hts]. }
  repeat split; eauto.
Qed.

Lemma ids_unique_when_clock_differs_witness :
  NoDup (Recipe.id <$>
           recipes (run (H := node_utc)
                      [(Sample.at_time 1730527200000,
                        post_json "/api/recipes" {[ "title" := JStr "Salad" ]});
                       (Sample.at_time 1730527200001,
                        post_json "/api/recipes" {[ "title" := JStr "Soup" ]})] initDB)).
Proof.
  apply (ids_unique_when_clock_differs (H := node_utc)
           [(Sample.at_time 1730527200000,
             post_json "/api/recipes" {[ "title" := JStr "Salad" ]});
            (Sample.at_time 1730527200001,
             post_json "/api/recipes" {[ "title" := JStr "Soup" ]})]).
  vm_compute. apply NoDup_cons. split; [|apply NoDup_singleton].
  intros Hin. apply list_elem_of_singleton in Hin. discriminate Hin.
Defined.

(** C7, the claim as stated fails: two recipes created within the same
    millisecond get the same id. *)
Lemma recipe_ids_collide :
  Recipe.id <$>
    recipes (run (H := node_utc)
               [(Sample.e0, post_json "/api/recipes" {[ "title" := JStr "Salad" ]});
                (Sample.e0, post_json "/api/recipes" {[ "title" := JStr "Soup" ]})] initDB)
  = ["m2zr7pc0"; "m2zr7pc0"]
  /\ ~ NoDup ["m2zr7pc0"; "m2zr7pc0"].
Proof.
  split; [vm_compute; reflexivity|].
  intros Hnd. apply NoDup_cons in Hnd as [Hnotin _]. apply Hnotin. left.
Qed.

(** ** The static responder *)

Example static_index :
  requestHandler (H := node_utc) Sample.e_disk (get "/") initDB
  = (initDB, {| statusCode := 200; contentType := "text/html";
                content := RContent "<html></html>" |})
  /\ filePath (H := node_utc) "/../..//database.json"
     = "/srv/personal_training/public/database.json".
Proof. vm_compute. split; reflexivity. Qed.

(** C5 fails on the code.  A request target in absolute form does not begin
    with a slash; [path.normalize] then keeps the [..] segments it cannot
    resolve, nothing is stripped, and the file read lies outside the public
    directory: here the database itself is served. *)
Theorem static_serves_file_outside_public :
  let url := "http://a/../../../database.json" in
  starts_with "/api/" url = false
  /\ PUBLIC_DIR (H := node_utc) = "/srv/personal_training/public"
  /\ filePath (H := node_utc) url = "/srv/personal_training/database.json"
  /\ under (PUBLIC_DIR (H := node_utc)) (filePath (H := node_utc) url) = false
  /\ requestHandler (H := node_utc) Sample.e_disk (get url) initDB
     = (initDB, {| statusCode := 200; contentType := "application/json";
                   content := RContent "{ admin ... }" |}).
Proof. vm_compute. repeat split; reflexivity. Qed.

(** *** Request targets that begin with a slash stay under the public root *)

Lemma append_cons a s t : String a s +:+ t = String a (s +:+ t).
Proof. reflexivity. Qed.

Lemma append_nil_r s : s +:+ "" = s.
Proof. induction s as [|a s IH]; [reflexivity|]. rewrite append_cons, IH. reflexivity. Qed.

Lemma append_assoc a b c : (a +:+ b) +:+ c = a +:+ (b +:+ c).
Proof.
  induction a as [|x a IH]; [reflexivity|]. rewrite !append_cons, IH. reflexivity.
Qed.

Lemma starts_with_app p s : starts_with p (p +:+ s) = true.
Proof.
  induction p as [|a p IH]; [reflexivity|].
  rewrite append_cons. cbn. rewrite Ascii.eqb_refl. exact IH.
Qed.

Lemma split_not_nil sep s : split sep s <> [].
Proof.
  destruct s as [|a s]; cbn; [discriminate|].
  destruct (Ascii.eqb a sep); [discriminate|]. destruct (split sep s); discriminate.
Qed.

Lemma split_app_slash a b :
  split "/" (a +:+ String "/" b) = split "/" a ++ split "/" b.
Proof.
  induction a as [|c a IH]; [reflexivity|].
  rewrite append_cons. cbn [split]. rewrite IH.
  destruct (Ascii.eqb c "/"); [reflexivity|].
  destruct (split "/" a) as [|h t] eqn:Hs; [destruct (split_not_nil _ _ Hs)|reflexivity].
Qed.

Lemma split_no_slash s : no_slash s -> split "/" s = [s].
Proof.
  unfold no_slash. induction s as [|c s IH]; [reflexivity|]. cbn.
  destruct (Ascii.eqb c "/"); [discriminate|].
  destruct (index_of "/" s); [discriminate|]. intros _. rewrite IH; reflexivity.
Qed.

Lemma split_segments_no_slash s : Forall no_slash (split "/" s).
Proof.
  induction s as [|c s IH]; [repeat constructor|]. cbn.
  destruct (Ascii.eqb_spec c "/") as [->|Hc].
  - constructor; [reflexivity|exact IH].
  - destruct (split "/" s) as [|h t]; [repeat constructor|].
    + unfold no_slash. cbn. destruct (Ascii.eqb_spec c "/"); [contradiction|reflexivity].
    + inversion IH as [|? ? Hh Ht]; subst. constructor; [|exact Ht].
      unfold no_slash in *. cbn. destruct (Ascii.eqb_spec c "/"); [contradiction|].
      rewrite Hh. reflexivity.
Qed.

Lemma split_join segs :
  Forall proper segs ->
  split "/" (join "/" segs) = match segs with [] => [""] | _ => segs end.
Proof.
  induction segs as [|x segs IH]; intros Hp; [reflexivity|].
  inversion Hp as [|? ? Hx Hsegs]; subst.
  destruct segs as [|y segs].
  - cbn. apply split_no_slash, Hx.
  - change (join "/" (x :: y :: segs)) with (x +:+ String "/" (join "/" (y :: segs))).
    rewrite split_app_slash, (IH Hsegs), split_no_slash by apply Hx. reflexivity.
Qed.

Lemma proper_eqb s :
  proper s -> String.eqb s "" = false /\ String.eqb s "." = false /\ String.eqb s ".." = false.
Proof. intros (H1 & H2 & H3 & _). repeat split; apply String.eqb_neq; assumption. Qed.

Lemma normalize_segments_proper above segs res :
  Forall proper segs -> normalize_segments above segs res = rev res ++ segs.
Proof.
  revert res. induction segs as [|s segs IH]; intros res Hp; cbn [normalize_segments].
  - rewrite app_nil_r. reflexivity.
  - inversion Hp as [|? ? Hs Hsegs]; subst.
    destruct (proper_eqb s Hs) as (-> & -> & ->). cbn [orb].
    rewrite (IH _ Hsegs). cbn [rev]. rewrite <- app_assoc. reflexivity.
Qed.

Lemma normalize_segments_app above segs1 segs2 res :
  normalize_segments above (segs1 ++ segs2) res
  = normalize_segments above segs2 (rev (normalize_segments above segs1 res)).
Proof.
  revert res. induction segs1 as [|s segs1 IH]; intros res; cbn [app normalize_segments].
  - rewrite rev_involutive. reflexivity.
  - repeat case_match; apply IH.
Qed.

(** Below the root nothing but proper segments is kept. *)
Lemma normalize_segments_keeps_proper segs res :
  Forall no_slash segs -> Forall proper res ->
  Forall proper (normalize_segments false segs res).
Proof.
  revert res. induction segs as [|s segs IH]; intros res Hsegs Hres; cbn [normalize_segments].
  - apply Forall_rev, Hres.
  - inversion Hsegs as [|? ? Hs Hsegs']; subst.
    destruct (String.eqb_spec s ""); [apply IH; assumption|].
    destruct (String.eqb_spec s "."); [apply IH; assumption|]. cbn [orb].
    destruct (String.eqb_spec s "..").
    + destruct res as [|top res]; [apply IH; assumption|].
      inversion Hres; subst. destruct (String.eqb top ".."); apply IH; assumption.
    + apply IH; [assumption|]. constructor; [|assumption]. repeat split; assumption.
Qed.

Lemma join_cons x y segs :
  join "/" (x :: y :: segs) = x +:+ String "/" (join "/" (y :: segs)).
Proof. reflexivity. Qed.

Lemma join_app segs1 segs2 :
  segs1 <> [] -> segs2 <> [] ->
  join "/" (segs1 ++ segs2) = join "/" segs1 +:+ String "/" (join "/" segs2).
Proof.
  intros H1 H2. induction segs1 as [|x segs1 IH]; [contradiction|].
  destruct segs1 as [|y segs1].
  - destruct segs2; [contradiction|]. reflexivity.
  - change ((x :: y :: segs1) ++ segs2) with (x :: y :: (segs1 ++ segs2)).
    rewrite !join_cons, append_assoc, append_cons.
    change (y :: segs1 ++ segs2) with ((y :: segs1) ++ segs2).
    rewrite IH by discriminate. reflexivity.
Qed.

(** A joined list of proper segments begins with a character that is not a
    slash. *)
Lemma join_head segs :
  Forall proper segs -> segs <> [] ->
  exists c rest, join "/" segs = String c rest /\ Ascii.eqb c "/" = false.
Proof.
  intros Hp Hne. destruct segs as [|x segs]; [contradiction|].
  inversion Hp as [|? ? (Hx & _ & _ & Hslash) _]; subst.
  destruct x as [|c x]; [contradiction|].
  exists c. unfold no_slash in Hslash. cbn in Hslash.
  destruct (Ascii.eqb c "/") eqn:Hc; [discriminate|].
  destruct segs; eexists; (split; [|reflexivity]); [reflexivity|].
  rewrite join_cons, append_cons. reflexivity.
Qed.

Lemma ends_with_slash_cons a s : s <> "" -> ends_with_slash (String a s) = ends_with_slash s.
Proof. destruct s; [contradiction|reflexivity]. Qed.

Lemma ends_with_slash_app x s : s <> "" -> ends_with_slash (x +:+ s) = ends_with_slash s.
Proof.
  intros Hs. induction x as [|a x IH]; [reflexivity|].
  rewrite append_cons, ends_with_slash_cons; [exact IH|].
  destruct x; [exact Hs|discriminate].
Qed.

Lemma ends_with_slash_no_slash s : no_slash s -> ends_with_slash s = false.
Proof.
  unfold no_slash. induction s as [|a s IH]; [reflexivity|]. cbn [index_of].
  destruct (Ascii.eqb a "/") eqn:Ha; [discriminate|].
  destruct (index_of "/" s); [discriminate|]. intros _.
  destruct s; [exact Ha|]. rewrite ends_with_slash_cons by discriminate. apply IH. reflexivity.
Qed.


(** [path.normalize] on an absolute path: a slash, the segments kept, and
    the trailing slash of the argument if any segment is kept. *)
Lemma normalize_absolute_path p :
  starts_with "/" p = true ->
  let kept := normalize_segments false (split "/" p) [] in
  Forall proper kept
  /\ normalize p
     = match kept with
       | [] => "/"
       | _ => String "/" (join "/" kept) +:+ (if ends_with_slash p then "/" else "")
       end.
Proof.
  intros Hp kept.
  assert (Forall proper kept) as Hkept.
  { apply normalize_segments_keeps_proper; [apply split_segments_no_slash|constructor]. }
  split; [exact Hkept|]. unfold normalize. fold kept.
  destruct p as [|a p]; [discriminate|]. cbn [String.eqb]. rewrite Hp. cbn [negb].
  fold kept. destruct kept as [|x kept']; [reflexivity|].
  destruct (join_head (x :: kept') Hkept) as (c & rest & -> & _); [discriminate|].
  cbn [String.eqb].
  destruct (ends_with_slash (String a p)); [|rewrite append_nil_r]; reflexivity.
Qed.

Lemma normalize_segments_below segs rest :
  Forall proper segs ->
  normalize_segments false (split "/" (String "/" (join "/" segs) +:+ String "/" rest)) []
  = normalize_segments false (split "/" rest) (rev segs).
Proof.
  intros Hsegs. rewrite append_cons. cbn [split Ascii.eqb Bool.eqb].
  cbn [normalize_segments String.eqb orb].
  rewrite split_app_slash, split_join, normalize_segments_app by exact Hsegs.
  destruct segs as [|x segs]; [reflexivity|].
  rewrite (normalize_segments_proper false (x :: segs) []) by exact Hsegs. reflexivity.
Qed.


Lemma slash_append s : "/" +:+ s = String "/" s.
Proof. reflexivity. Qed.

Lemma PUBLIC_DIR_segments `{Runtime} dsegs :
  Forall proper dsegs -> __dirname = String "/" (join "/" dsegs) ->
  PUBLIC_DIR = String "/" (join "/" (dsegs ++ ["public"]))
  /\ Forall proper (dsegs ++ ["public"]).
Proof.
  intros Hd Hdir.
  assert (Forall proper (dsegs ++ ["public"])) as Hp.
  { apply Forall_app. split; [exact Hd|]. constructor; [|constructor].
    repeat split; discriminate. }
  split; [|exact Hp]. unfold PUBLIC_DIR, path_join. rewrite Hdir. cbn [String.eqb].
  rewrite slash_append.
  destruct (normalize_absolute_path
              (String "/" (join "/" dsegs) +:+ String "/" "public") eq_refl) as [_ ->].
  rewrite normalize_segments_below by exact Hd.
  change (split "/" "public") with ["public"].
  rewrite normalize_segments_proper, rev_involutive by (repeat constructor; discriminate).
  rewrite ends_with_slash_app by discriminate. cbn [ends_with_slash Ascii.eqb Bool.eqb].
  rewrite append_nil_r. destruct (dsegs ++ ["public"]) eqn:Heq; [|reflexivity].
  destruct dsegs; discriminate.
Qed.



(** * Further properties of the handlers *)

(** ** Login *)

(** [POST /api/login] never writes the store.  An object body is answered
    200 with [success: true] exactly when its [username] and [password] are
    both strictly equal to the stored admin pair, and 401 with [success:
    false] otherwise (a missing field, a value of another type); a body that
    is not JSON or is [null] is answered 400. *)
Theorem login_checks_both_credentials `{Runtime} e req d :
  url req = "/api/login" -> method req = "POST" ->
  fst (handleAPI e req d) = d
  /\ (forall o, reqBody req = Obj o ->
        (o !! "username" = Some (Admin.username (admin d))
         /\ o !! "password" = Some (Admin.password (admin d)) ->
         snd (handleAPI e req d) = reply 200 (RSuccess true))
        /\ (~ (o !! "username" = Some (Admin.username (admin d))
               /\ o !! "password" = Some (Admin.password (admin d))) ->
            snd (handleAPI e req d) = reply 401 (RSuccess false)))
  /\ (reqBody req = BadJson \/ reqBody req = NullBody ->
      statusCode (snd (handleAPI e req d)) = 400).
Proof.
  intros Hu Hm.
  assert (handleAPI e req d = post_login (reqBody req) d) as ->.
  { unfold handleAPI. rewrite Hu, Hm. reflexivity. }
  unfold post_login, with_body, strict_eq. split; [|split].
  - destruct (reqBody req); reflexivity.
  - intros o Ho. rewrite Ho. split.
    + intros [Hn Hp]. rewrite Hn, Hp, !bool_decide_eq_true_2 by reflexivity. reflexivity.
    + intros Hnot.
      destruct (decide (o !! "username" = Some (Admin.username (admin d)))) as [Hn|Hn];
        [|rewrite (bool_decide_eq_false_2 _ Hn); reflexivity].
      destruct (decide (o !! "password" = Some (Admin.password (admin d)))) as [Hp|Hp];
        [tauto|].
      rewrite (bool_decide_eq_true_2 _ Hn), (bool_decide_eq_false_2 _ Hp). reflexivity.
  - intros [-> | ->]; reflexivity.
Qed.

Lemma login_checks_both_credentials_witness :
  handleAPI (H := node_utc) Sample.e0
    (post_json "/api/login" {[ "username" := JStr "admin"; "password" := JStr "admin123" ]})
    initDB
  = (initDB, reply 200 (RSuccess true)).
Proof.
  pose proof (login_checks_both_credentials (H := node_utc) Sample.e0
                (post_json "/api/login"
                   {[ "username" := JStr "admin"; "password" := JStr "admin123" ]})
                initDB eq_refl eq_refl) as (Hstore & Hobj & _).
  destruct (Hobj _ eq_refl) as [Hok _].
  rewrite (surjective_pairing (handleAPI _ _ _)), Hstore, Hok; [reflexivity|].
  split; vm_compute; reflexivity.
Defined.

(** ** Validation of the create requests *)

Lemma route_exact `{Runtime} e req d u m :
  url req = u -> method req = m ->
  handleAPI e req d = handleAPI e {| method := m; url := u; reqBody := reqBody req |} d.
Proof. intros <- <-. destruct req; reflexivity. Qed.

(** A create request that lacks a mandatory field (name or email of a
    client, title of a program or of a recipe, email or password of a
    ticket), or whose body is not an object, is answered 400 and the store is
    left as it was. *)
Theorem create_requires_mandatory_fields `{Runtime} e req d :
  method req = "POST" ->
  let missing k := truthy_opt (field (reqBody req) k) = false in
  (url req = "/api/clients" /\ (missing "name" \/ missing "email"))
  \/ (url req = "/api/programs" /\ missing "title")
  \/ (url req = "/api/recipes" /\ missing "title")
  \/ (url req = "/api/support/create" /\ (missing "email" \/ missing "password")) ->
  exists message, handleAPI e req d = (d, reply 400 (RError message)).
Proof.
  intros Hm missing Hcase.
  destruct Hcase as [[Hu Hf]|[[Hu Hf]|[[Hu Hf]|[Hu Hf]]]];
    rewrite (route_exact e req d _ _ Hu Hm); unfold handleAPI; cbn -[toString36];
    unfold post_clients, post_programs, post_recipes, post_support_create, with_body;
    unfold missing in Hf; destruct (reqBody req) as [| |o]; eauto; cbn [field] in Hf.
  - destruct Hf as [-> | ->]; rewrite ?orb_true_r; cbn; eauto.
  - rewrite Hf. cbn. eauto.
  - rewrite Hf. cbn. eauto.
  - destruct Hf as [-> | ->]; rewrite ?orb_true_r; cbn; eauto.
Qed.

Lemma create_requires_mandatory_fields_witness :
  exists message,
    handleAPI (H := node_utc) Sample.e0
      (post_json "/api/clients" {[ "name" := JStr "Ann"; "email" := JStr "" ]}) initDB
    = (initDB, reply 400 (RError message)).
Proof.
  apply (create_requires_mandatory_fields (H := node_utc) Sample.e0
           (post_json "/api/clients" {[ "name" := JStr "Ann"; "email" := JStr "" ]})
           initDB eq_refl).
  left. split; [reflexivity|]. right. vm_compute. reflexivity.
Defined.

(** ** Requests that no route takes *)

(** A request under [/api/] whose method is none of GET, POST, PUT and
    DELETE is answered 404 "unknown endpoint" whatever its path, and changes
    nothing. *)
Theorem unknown_method_is_404 `{Runtime} e req d :
  method req <> "GET" -> method req <> "POST" ->
  method req <> "PUT" -> method req <> "DELETE" ->
  handleAPI e req d = (d, reply 404 (RError "unknown endpoint")).
Proof.
  intros Hg Hp Hu Hd. apply String.eqb_neq in Hg, Hp, Hu, Hd.
  unfold handleAPI. rewrite Hg, Hp, Hu, Hd. cbn -[split]. rewrite !andb_false_r. reflexivity.
Qed.

Lemma unknown_method_is_404_witness :
  handleAPI (H := node_utc) Sample.e0
    {| method := "PATCH"; url := "/api/tickets/t1"; reqBody := Obj ∅ |} Sample.d_tickets
  = (Sample.d_tickets, reply 404 (RError "unknown endpoint")).
Proof.
  apply (unknown_method_is_404 (H := node_utc)); discriminate.
Defined.

(** Under [/api/tickets/:id/] only [message] accepts a POST: any other
    fifth path segment, or none, falls through every route to 404 "unknown
    endpoint", and nothing is stored. *)
Theorem post_under_ticket_needs_message `{Runtime} e req d :
  method req = "POST" -> starts_with "/api/tickets/" (url req) = true ->
  split "/" (url req) !! 4%nat <> Some "message" ->
  handleAPI e req d = (d, reply 404 (RError "unknown endpoint")).
Proof.
  intros Hm Hu Hp. unfold handleAPI. rewrite Hm, Hu.
  rewrite (bool_decide_eq_false_2 _ Hp).
  not_url Hu "/api/login". not_url Hu "/api/clients". not_url Hu "/api/programs".
  not_url Hu "/api/tickets". not_url Hu "/api/support/create". not_url Hu "/api/recipes".
  reflexivity.
Qed.

Lemma post_under_ticket_needs_message_witness :
  handleAPI (H := node_utc) Sample.e0
    (post_json "/api/tickets/t1/messages" {[ "text" := JStr "hello" ]}) Sample.d_tickets
  = (Sample.d_tickets, reply 404 (RError "unknown endpoint")).
Proof.
  apply (post_under_ticket_needs_message (H := node_utc)); [reflexivity..|discriminate].
Defined.

(** ** What requests never do *)

(** Decides the comparisons of a known method with the four literals. *)
Ltac known_method m :=
  change (String.eqb m "GET") with (bool_decide (m = "GET"));
  change (String.eqb m "POST") with (bool_decide (m = "POST"));
  change (String.eqb m "PUT") with (bool_decide (m = "PUT"));
  change (String.eqb m "DELETE") with (bool_decide (m = "DELETE"));
  rewrite ?(bool_decide_eq_true_2 (m = m)) by reflexivity;
  rewrite ?(bool_decide_eq_false_2 (m = _)) by discriminate;
  rewrite ?andb_false_r, ?andb_true_r; cbn [andb].

Ltac unfold_handlers :=
  unfold post_login, get_clients, post_clients, get_programs, post_programs, get_tickets,
    post_support_create, get_ticket, post_message, put_ticket, delete_ticket, get_recipes,
    post_recipes, put_recipe, delete_recipe, get_user_ticket, with_body.

(** A POST or PUT whose body is not JSON stores nothing: it is answered 400
    "Invalid JSON" on every route that reads a body and 404 "unknown endpoint"
    elsewhere. *)
Theorem invalid_json_changes_nothing `{Runtime} e req d :
  method req = "POST" \/ method req = "PUT" -> reqBody req = BadJson ->
  handleAPI e req d = (d, reply 400 (RError "Invalid JSON"))
  \/ handleAPI e req d = (d, reply 404 (RError "unknown endpoint")).
Proof.
  intros Hm Hb. unfold handleAPI.
  destruct Hm as [Hm|Hm]; rewrite Hm, Hb;
    [known_method "POST"|known_method "PUT"];
    repeat case_match; unfold_handlers; auto.
Qed.

Lemma invalid_json_changes_nothing_witness :
  handleAPI (H := node_utc) Sample.e0
    {| method := "PUT"; url := "/api/tickets/t1"; reqBody := BadJson |} Sample.d_tickets
  = (Sample.d_tickets, reply 400 (RError "Invalid JSON")).
Proof.
  destruct (invalid_json_changes_nothing (H := node_utc) Sample.e0
              {| method := "PUT"; url := "/api/tickets/t1"; reqBody := BadJson |}
              Sample.d_tickets (or_intror eq_refl) eq_refl) as [Hr|Hr]; [exact Hr|].
  vm_compute in Hr. discriminate Hr.
Defined.

(** Reading is free of effects everywhere but on the clients: a GET with any
    other target than [/api/clients], static files included, leaves the store
    as it was. *)
Theorem get_changes_nothing `{Runtime} e req d :
  method req = "GET" -> url req <> "/api/clients" ->
  fst (requestHandler e req d) = d.
Proof.
  intros Hm Hu. apply String.eqb_neq in Hu.
  unfold requestHandler, handleAPI. rewrite Hm, Hu. known_method "GET".
  repeat case_match; unfold_handlers; repeat case_match; reflexivity.
Qed.

Lemma get_changes_nothing_witness :
  fst (requestHandler (H := node_utc) Sample.e0 (get "/api/tickets/t2") Sample.d_tickets)
  = Sample.d_tickets.
Proof.
  apply (get_changes_nothing (H := node_utc)); [reflexivity|discriminate].
Defined.

(** Every answer of the API is JSON with one of the status codes 200, 201,
    400, 401 and 404. *)
Theorem api_status_codes `{Runtime} e req d :
  contentType (snd (handleAPI e req d)) = "application/json"
  /\ statusCode (snd (handleAPI e req d)) ∈ [200; 201; 400; 401; 404].
Proof.
  unfold handleAPI. repeat case_match; unfold_handlers; repeat case_match;
    cbn [snd reply statusCode contentType]; (split; [reflexivity|]);
    repeat first [apply list_elem_of_here | apply list_elem_of_further].
Qed.

(** ** Deleting and updating by id *)

Lemma list_find_middle {A} (P : A -> Prop) `{!forall x, Decision (P x)}
    (before : list A) x after :
  P x -> (forall y, y ∈ before -> ~ P y) ->
  list_find P (before ++ x :: after) = Some (length before, x).
Proof.
  intros Hx Hbefore. apply list_find_Some. split; [|split].
  - apply list_lookup_middle. reflexivity.
  - exact Hx.
  - intros j y Hj Hlt. apply Hbefore.
    rewrite lookup_app_l in Hj by exact Hlt. eapply list_elem_of_lookup_2, Hj.
Qed.

Lemma list_find_absent {A} (P : A -> Prop) `{!forall x, Decision (P x)} (l : list A) :
  (forall y, y ∈ l -> ~ P y) -> list_find P l = None.
Proof. intros Hl. apply list_find_None, Forall_forall, Hl. Qed.

Lemma route_delete_ticket `{Runtime} e req d :
  method req = "DELETE" -> starts_with "/api/tickets/" (url req) = true ->
  handleAPI e req d = delete_ticket (split "/" (url req) !! 3%nat) d.
Proof.
  intros Hm Hu. unfold handleAPI. rewrite Hm, Hu. known_method "DELETE". reflexivity.
Qed.

Lemma route_put_recipe `{Runtime} e req d :
  method req = "PUT" -> starts_with "/api/recipes/" (url req) = true ->
  handleAPI e req d = put_recipe (split "/" (url req) !! 3%nat) (reqBody req) d.
Proof.
  intros Hm Hu. unfold handleAPI. rewrite Hm, Hu. known_method "PUT".
  rewrite (starts_with_other _ "/api/tickets/" _ Hu) by reflexivity. reflexivity.
Qed.


(** [DELETE /api/tickets/:id] removes the first ticket that has the id and
    no other: the tickets before and after it stay, in their order.  When no
    ticket has the id the answer is 404 and the store is unchanged. *)
Theorem delete_ticket_removes_first `{Runtime} e req d :
  method req = "DELETE" -> starts_with "/api/tickets/" (url req) = true ->
  let id := split "/" (url req) !! 3%nat in
  ((forall t, t ∈ tickets d -> Some (Ticket.id t) <> id) ->
   handleAPI e req d = (d, reply 404 (RError "not found")))
  /\ (forall before t after,
        tickets d = before ++ t :: after -> Some (Ticket.id t) = id ->
        (forall t', t' ∈ before -> Some (Ticket.id t') <> id) ->
        handleAPI e req d
        = (with_tickets (before ++ after) d, reply 200 (RSuccess true))).
Proof.
  intros Hm Hu id. rewrite route_delete_ticket by assumption. fold id.
  unfold delete_ticket, find_ticket. split.
  - intros Hnone. rewrite list_find_absent by exact Hnone. reflexivity.
  - intros before t after Hl Ht Hbefore.
    rewrite Hl, (list_find_middle _ before t after Ht Hbefore), delete_middle. reflexivity.
Qed.

Lemma delete_ticket_removes_first_witness :
  handleAPI (H := node_utc) Sample.e0
    {| method := "DELETE"; url := "/api/tickets/t2"; reqBody := Obj ∅ |} Sample.d_tickets
  = (with_tickets [Sample.ticket "t1" "open"] Sample.d_tickets, reply 200 (RSuccess true)).
Proof.
  apply (proj2 (delete_ticket_removes_first (H := node_utc) Sample.e0
                  {| method := "DELETE"; url := "/api/tickets/t2"; reqBody := Obj ∅ |}
                  Sample.d_tickets eq_refl eq_refl)
           [Sample.ticket "t1" "open"] (Sample.ticket "t2" "closed") []);
    [reflexivity..|].
  intros t' Hin. apply list_elem_of_singleton in Hin. subst t'. discriminate.
Defined.



(** [PUT /api/recipes/:id] rewrites the first recipe with the id in place:
    each of title, ingredients, instructions and image that the body carries
    replaces the stored value, [null] included; the fields the body does not
    carry, the id and all other recipes stay as they were.  When no recipe
    has the id the answer is 404 and the store is unchanged. *)
Theorem put_recipe_is_partial `{Runtime} e req d :
  method req = "PUT" -> starts_with "/api/recipes/" (url req) = true ->
  let id := split "/" (url req) !! 3%nat in
  (reqBody req <> BadJson ->
   (forall c, c ∈ recipes d -> Some (Recipe.id c) <> id) ->
   handleAPI e req d = (d, reply 404 (RError "not found")))
  /\ (forall o before c after,
        reqBody req = Obj o ->
        recipes d = before ++ c :: after -> Some (Recipe.id c) = id ->
        (forall c', c' ∈ before -> Some (Recipe.id c') <> id) ->
        handleAPI e req d
        = (with_recipes
             (before
              ++ {| Recipe.id := Recipe.id c;
                    Recipe.title := default (Recipe.title c) (o !! "title");
                    Recipe.ingredients := default (Recipe.ingredients c) (o !! "ingredients");
                    Recipe.instructions :=
                      default (Recipe.instructions c) (o !! "instructions");
                    Recipe.image := default (Recipe.image c) (o !! "image") |}
              :: after) d,
           reply 200 (RSuccess true))).
Proof.
  intros Hm Hu id. rewrite route_put_recipe by assumption. fold id.
  unfold put_recipe, find_recipe. split.
  - intros Hb Hnone. rewrite list_find_absent by exact Hnone.
    destruct (reqBody req); [contradiction|reflexivity..].
  - intros o before c after Hb Hl Hc Hbefore.
    rewrite Hb, Hl, (list_find_middle _ before c after Hc Hbefore). cbn [with_body].
    unfold assign. rewrite <- (Nat.add_0_r (length before)), insert_app_r. reflexivity.
Qed.

Lemma put_recipe_is_partial_witness :
  handleAPI (H := node_utc) Sample.e0
    {| method := "PUT"; url := "/api/recipes/r2";
       reqBody := Obj {[ "title" := JNull; "image" := JStr "/img/soup.png" ]} |}
    Sample.d_recipes
  = (with_recipes
       [Sample.recipe "r1" "Salad";
        {| Recipe.id := "r2"; Recipe.title := JNull; Recipe.ingredients := JStr "leaves";
           Recipe.instructions := JStr "toss"; Recipe.image := JStr "/img/soup.png" |}]
       Sample.d_recipes,
     reply 200 (RSuccess true)).
Proof.
  rewrite (proj2 (put_recipe_is_partial (H := node_utc) Sample.e0
                    {| method := "PUT"; url := "/api/recipes/r2";
                       reqBody := Obj {[ "title" := JNull; "image" := JStr "/img/soup.png" ]} |}
                    Sample.d_recipes eq_refl eq_refl)
             {[ "title" := JNull; "image" := JStr "/img/soup.png" ]}
             [Sample.recipe "r1" "Salad"] (Sample.recipe "r2" "Soup") []
             eq_refl eq_refl eq_refl).
  - vm_compute. reflexivity.
  - intros c' Hin. apply list_elem_of_singleton in Hin. subst c'. discriminate.
Defined.

(** ** Reading the clients *)

Lemma refresh_refreshed_from `{Runtime} now c : refreshed_from c (fst (refresh now c)).
Proof.
  unfold refresh, refreshed_from.
  destruct (truthy (Client.startDate c) && truthy (Client.duration c)).
  - set (daysLeft := ceil_days _).
    assert (exists days, 0 <= days
                         /\ (if num_gt0 daysLeft then default 0 daysLeft else 0) = days)
      as (days & Hdays & ->).
    { destruct daysLeft as [x|]; cbn; [|exists 0; split; [lia|reflexivity]].
      destruct (Z.ltb_spec 0 x); eexists; (split; [|reflexivity]); lia. }
    destruct (Client.active _ && num_le0 daysLeft) eqn:Hflip; cbn; repeat split; eauto;
      try discriminate.
  - cbn. repeat split; auto.
Qed.

(** [GET /api/clients] answers 200 with as many clients as are stored, in
    the same order; each is the stored one but for [daysLeft], which becomes
    [null] or a number that is not negative, and for [active], which a read
    can turn off but never on.  The store afterwards is the old one or the
    old one with the clients of the answer. *)
Theorem get_clients_keeps_identity `{Runtime} e d :
  exists d' l,
    handleAPI e (get "/api/clients") d = (d', reply 200 (RClients l))
    /\ Forall2 refreshed_from (clients d) l
    /\ (d' = d \/ d' = with_clients l d).
Proof.
  change (handleAPI e (get "/api/clients") d) with (get_clients e d).
  unfold get_clients. cbn zeta.
  eexists _, _. split; [reflexivity|]. split.
  - cbn [clients with_clients]. induction (clients d) as [|c l IH]; constructor;
      [apply refresh_refreshed_from|exact IH].
  - destruct (existsb _ _); [right|left]; reflexivity.
Qed.

Lemma refresh_again `{Runtime} now c :
  refresh now (fst (refresh now c)) = (fst (refresh now c), false).
Proof.
  destruct (refresh now c) as [c' updated] eqn:Hr. cbn [fst].
  unfold refresh in Hr |- *.
  destruct (truthy (Client.startDate c) && truthy (Client.duration c)) eqn:Hdates.
  - destruct (Client.active _ && num_le0 _) eqn:Hflip in Hr; injection Hr as <- <-;
      cbn [Client.startDate Client.duration Client.with_active Client.with_daysLeft
           Client.active] in Hflip |- *; rewrite Hdates.
    + reflexivity.
    + rewrite Hflip. reflexivity.
  - injection Hr as <- <-.
    cbn [Client.startDate Client.duration Client.with_daysLeft]. rewrite Hdates. reflexivity.
Qed.

(** A second [GET /api/clients] at the same instant gives the answer of the
    first and writes nothing: whatever the first read had to switch off is
    switched off already. *)
Theorem get_clients_twice `{Runtime} e e' d :
  clock e' 0 = clock e 0 ->
  handleAPI e' (get "/api/clients") (fst (handleAPI e (get "/api/clients") d))
  = (fst (handleAPI e (get "/api/clients") d), snd (handleAPI e (get "/api/clients") d)).
Proof.
  intros Hclock.
  assert (forall x y, handleAPI x (get "/api/clients") y = get_clients x y) as Hroute
    by reflexivity.
  rewrite !Hroute. unfold get_clients. cbn zeta. rewrite Hclock.
  set (now := clock e 0). cbn [clients with_clients].
  assert (forall l, map (refresh now) (map fst (map (refresh now) l))
                    = map (fun c => (c, false)) (map fst (map (refresh now) l))) as Hagain.
  { induction l as [|c l IH]; [reflexivity|]. cbn [map]. rewrite refresh_again, IH.
    reflexivity. }
  assert (forall l : list Client.t, map fst (map (fun c => (c, false)) l) = l) as Hfst.
  { induction l as [|c l IH]; [reflexivity|]. cbn. rewrite IH. reflexivity. }
  assert (forall l : list Client.t, existsb snd (map (fun c => (c, false)) l) = false)
    as Hsnd.
  { induction l as [|c l IH]; [reflexivity|]. exact IH. }
  destruct (existsb snd (map (refresh now) (clients d))) eqn:Hupdated; cbn [fst snd].
  - cbn [clients with_clients]. rewrite Hagain, Hfst, Hsnd. reflexivity.
  - rewrite Hupdated. reflexivity.
Qed.

Lemma get_clients_twice_witness :
  let d := with_clients [Sample.client (JNum 3)] initDB in
  handleAPI (H := node_utc) Sample.e0 (get "/api/clients")
    (fst (handleAPI (H := node_utc) Sample.e0 (get "/api/clients") d))
  = (with_clients
       [Client.with_active false (Client.with_daysLeft (JNum 0) (Sample.client (JNum 3)))]
       initDB,
     reply 200
       (RClients
          [Client.with_active false
             (Client.with_daysLeft (JNum 0) (Sample.client (JNum 3)))])).
Proof.
  intros d.
  rewrite (get_clients_twice (H := node_utc) Sample.e0 Sample.e0 d eq_refl).
  vm_compute. reflexivity.
Defined.

(** ** What the store keeps *)

Lemma run_admin `{Runtime} rs d : admin (run rs d) = admin d.
Proof.
  induction rs as [|[e r] rs IH] using rev_ind; [reflexivity|].
  rewrite run_snoc. destruct (handleAPI_change e r (run rs d)); exact IH.
Qed.

(** No request changes the admin credentials: after any sequence of requests
    on the store [initDB] writes, a login with the default pair is answered
    200 with [success: true]. *)
Theorem default_admin_always_logs_in `{Runtime} rs e :
  handleAPI e
    (post_json "/api/login" {[ "username" := JStr "admin"; "password" := JStr "admin123" ]})
    (run rs initDB)
  = (run rs initDB, reply 200 (RSuccess true)).
Proof.
  change (handleAPI e _ (run rs initDB))
    with (post_login
            (Obj {[ "username" := JStr "admin"; "password" := JStr "admin123" ]})
            (run rs initDB)).
  unfold post_login, with_body. rewrite run_admin. cbn [admin initDB Admin.username
    Admin.password]. unfold strict_eq.
  rewrite !bool_decide_eq_true_2; [reflexivity|vm_compute; reflexivity..].
Qed.

(** There is no way to remove a program or a client: after any sequence of
    requests the programs stored before are still there, unchanged and in
    front of the new ones, and so are the ids of the clients. *)
Theorem programs_and_clients_are_kept `{Runtime} rs d :
  programs d `prefix_of` programs (run rs d)
  /\ (Client.id <$> clients d) `prefix_of` (Client.id <$> clients (run rs d)).
Proof.
  induction rs as [|[e r] rs [IHp IHc]] using rev_ind; [split; reflexivity|].
  rewrite run_snoc.
  destruct (handleAPI_change e r (run rs d));
    cbn [programs clients with_clients with_programs with_tickets with_recipes];
    rewrite ?refresh_id, ?fmap_app; split;
    first [assumption | apply prefix_app_r; assumption].
Qed.

(** ** Threads only grow *)

Lemma same_thread_refl t : same_thread t t.
Proof. repeat split; reflexivity. Qed.

Lemma same_thread_trans t1 t2 t3 :
  same_thread t1 t2 -> same_thread t2 t3 -> same_thread t1 t3.
Proof.
  intros (? & ? & ? & ? & ?) (? & ? & ? & ? & ?).
  repeat split; try congruence. etrans; eassumption.
Qed.

Lemma same_thread_push m t : same_thread t (Ticket.push m t).
Proof. repeat split. cbn. apply prefix_app_r. reflexivity. Qed.

Lemma same_thread_update_status `{Runtime} e v t : same_thread t (update_status e v t).
Proof.
  unfold update_status. repeat case_match; repeat split; cbn;
    try reflexivity; repeat apply prefix_app_r; reflexivity.
Qed.

Lemma insert_keeps_thread (l : list Ticket.t) i j t tj x :
  l !! i = Some t -> l !! j = Some tj -> same_thread tj x ->
  exists t', <[j := x]> l !! i = Some t' /\ same_thread t t'.
Proof.
  intros Hi Hj Hx. destruct (decide (i = j)) as [->|Hne].
  - exists x. rewrite list_lookup_insert_eq by (eapply lookup_lt_Some, Hj).
    split; [reflexivity|]. congruence.
  - exists t. rewrite list_lookup_insert_ne by congruence.
    split; [exact Hi|apply same_thread_refl].
Qed.

Lemma step_keeps_threads `{Runtime} e r d i t :
  method r <> "DELETE" -> tickets d !! i = Some t ->
  exists t', tickets (fst (requestHandler e r d)) !! i = Some t' /\ same_thread t t'.
Proof.
  intros Hm Hi. apply String.eqb_neq in Hm.
  unfold requestHandler, handleAPI. rewrite Hm. cbn [andb].
  repeat case_match; unfold_handlers; repeat case_match; cbn [fst tickets with_tickets
    with_clients with_programs with_recipes];
    try (exists t; split; [exact Hi|apply same_thread_refl]).
  all: try (exists t; split; [apply lookup_app_l_Some, Hi|apply same_thread_refl]).
  all: match goal with
       | Hf : find_ticket _ _ = Some _ |- _ => apply find_ticket_lookup in Hf
       end.
  all: eapply insert_keeps_thread; eauto using same_thread_push, same_thread_update_status.
Qed.

(** As long as no DELETE is sent, every stored ticket stays at its place
    with its id, its credentials and its creation time, and its messages are
    never removed or rewritten: the thread at a later time begins with the
    thread as it was. *)
Theorem threads_only_grow `{Runtime} rs d i t :
  Forall (fun er : env * request => method (snd er) <> "DELETE") rs ->
  tickets d !! i = Some t ->
  exists t', tickets (run rs d) !! i = Some t' /\ same_thread t t'.
Proof.
  intros Hrs Hi. induction rs as [|[e r] rs IH] using rev_ind.
  - exists t. split; [exact Hi|apply same_thread_refl].
  - apply Forall_app in Hrs as [Hrs Hr]. inversion Hr as [|? ? Hm _]; subst.
    destruct (IH Hrs) as (t1 & H1 & Hsame1). rewrite run_snoc.
    destruct (step_keeps_threads e r (run rs d) i t1 Hm H1) as (t2 & H2 & Hsame2).
    exists t2. split; [exact H2|]. eapply same_thread_trans; eassumption.
Qed.

Lemma threads_only_grow_witness :
  exists t',
    tickets (run (H := node_utc)
               [(Sample.e0, post_json "/api/tickets/t1/message" {[ "text" := JStr "hello" ]});
                (Sample.e0, Sample.put_status "t1" "closed")]
               Sample.d_tickets) !! 0%nat = Some t'
    /\ same_thread (Sample.ticket "t1" "open") t'.
Proof.
  apply (threads_only_grow (H := node_utc)); [|reflexivity].
  repeat constructor; discriminate.
Defined.

(** ** Status changes compose *)

Lemma find_ticket_insert `{Runtime} id d i t t' :
  find_ticket id d = Some (i, t) -> Ticket.id t' = Ticket.id t ->
  find_ticket id (with_tickets (<[i := t']> (tickets d)) d) = Some (i, t').
Proof.
  unfold find_ticket. cbn [tickets with_tickets]. intros Hf Hid.
  apply list_find_Some in Hf as (Hi & Ht & Hbefore). apply list_find_Some.
  split; [|split].
  - apply list_lookup_insert_eq. eapply lookup_lt_Some, Hi.
  - rewrite Hid. exact Ht.
  - intros j y Hj Hlt. rewrite list_lookup_insert_ne in Hj by lia. eapply Hbefore; eassumption.
Qed.

(** A [PUT /api/tickets/:id] whose status is absent or falsy, or equal to
    the status the ticket has, is answered 200 and leaves the store exactly as
    it was: no message is added. *)
Theorem put_same_status_changes_nothing `{Runtime} e req d o i t :
  method req = "PUT" -> starts_with "/api/tickets/" (url req) = true ->
  reqBody req = Obj o ->
  find_ticket (split "/" (url req) !! 3%nat) d = Some (i, t) ->
  truthy_opt (o !! "status") = false \/ o !! "status" = Ticket.status t ->
  handleAPI e req d = (d, reply 200 (RSuccess true)).
Proof.
  intros Hm Hu Hb Hf Hs. rewrite route_put_ticket by assumption.
  unfold put_ticket. rewrite Hb. cbn [with_body]. rewrite Hf.
  assert (update_status e (o !! "status") t = t) as ->.
  { unfold update_status. destruct (truthy_opt (o !! "status")) eqn:Htruthy; [|reflexivity].
    destruct Hs as [Hs|Hs]; [discriminate|]. rewrite Hs in Htruthy |- *.
    destruct (Ticket.status t) as [v|] eqn:Hst; [|discriminate]. cbn in Htruthy.
    cbn [or_default]. rewrite Htruthy.
    assert (Ticket.with_status (Some v) t = t) as Hsame.
    { destruct t; cbn in *; subst; reflexivity. }
    destruct (strict_eq (Some v) (Some (JStr "closed"))) eqn:Hclosed.
    - cbn [negb]. rewrite andb_false_r.
      apply bool_decide_eq_true_1 in Hclosed. injection Hclosed as ->.
      unfold strict_eq. rewrite bool_decide_eq_false_2 by discriminate. exact Hsame.
    - rewrite !andb_false_r. exact Hsame. }
  rewrite list_insert_id by (eapply find_ticket_lookup, Hf).
  destruct d; reflexivity.
Qed.

Lemma put_same_status_changes_nothing_witness :
  handleAPI (H := node_utc) Sample.e0 (Sample.put_status "t2" "closed") Sample.d_tickets
  = (Sample.d_tickets, reply 200 (RSuccess true)).
Proof.
  apply (put_same_status_changes_nothing (H := node_utc) Sample.e0
           (Sample.put_status "t2" "closed") Sample.d_tickets
           {[ "status" := JStr "closed" ]} 1%nat (Sample.ticket "t2" "closed"));
    try (vm_compute; reflexivity).
  right. vm_compute. reflexivity.
Defined.

Lemma starts_with_trans p q s :
  starts_with p q = true -> starts_with q s = true -> starts_with p s = true.
Proof.
  revert q s. induction p as [|a p IH]; intros q s Hpq Hqs; [reflexivity|].
  destruct q as [|b q]; [discriminate|]. destruct s as [|c s]; [discriminate|].
  cbn in *. apply andb_prop in Hpq as [Hab Hpq], Hqs as [Hbc Hqs].
  apply Ascii.eqb_eq in Hab, Hbc. subst. rewrite Ascii.eqb_refl. cbn. eauto.
Qed.

(** Closing a ticket that is not closed and then reopening it leaves it open
    with exactly two more messages, the closing and then the reopening one,
    each stamped with the time of its request; everything else in the store
    is as before. *)
Theorem close_then_reopen `{Runtime} e1 e2 u d i t :
  starts_with "/api/tickets/" u = true ->
  find_ticket (split "/" u !! 3%nat) d = Some (i, t) ->
  Ticket.status t <> Some (JStr "closed") ->
  let put status :=
    {| method := "PUT"; url := u; reqBody := Obj {[ "status" := JStr status ]} |} in
  run [(e1, put "closed"); (e2, put "open")] d
  = with_tickets
      (<[i := Ticket.with_status (Some (JStr "open"))
                (Ticket.push (admin_message reopening_text (clock e2 0))
                   (Ticket.push (admin_message closing_text (clock e1 0)) t))]>
         (tickets d)) d.
Proof.
  intros Hu Hf Hopen put. unfold run, fold_left, requestHandler. cbn [fst snd url put].
  rewrite (starts_with_trans "/api/" "/api/tickets/" u eq_refl Hu).
  rewrite !route_put_ticket by (try reflexivity; exact Hu).
  cbn [url reqBody put]. unfold put_ticket at 2. cbn [with_body]. rewrite Hf. cbn [fst].
  set (t1 := update_status e1 _ t).
  unfold put_ticket. cbn [with_body].
  rewrite (find_ticket_insert _ d i t t1 Hf) by apply update_status_id. cbn [fst].
  cbn [tickets with_tickets]. rewrite list_insert_insert_eq.
  assert (update_status e2 ({[ "status" := JStr "open" ]} !! "status") t1
          = Ticket.with_status (Some (JStr "open"))
              (Ticket.push (admin_message reopening_text (clock e2 0))
                 (Ticket.push (admin_message closing_text (clock e1 0)) t))) as ->.
  { unfold t1. rewrite !lookup_singleton_eq. unfold update_status. cbn [truthy_opt truthy].
    assert (strict_eq (Some (or_default (Ticket.status t) (JStr "open")))
              (Some (JStr "closed")) = false) as Hold.
    { apply bool_decide_eq_false_2. intros [= Heq]. apply Hopen.
      destruct (Ticket.status t) as [v|]; cbn in Heq; [|discriminate].
      destruct (truthy v); congruence. }
    cbn [String.eqb Ascii.eqb Bool.eqb negb].
    rewrite Hold. reflexivity. }
  destruct d; reflexivity.
Qed.

Lemma close_then_reopen_witness :
  Ticket.messages <$>
    tickets (run (H := node_utc)
               [(Sample.at_time 1730527200000, Sample.put_status "t1" "closed");
                (Sample.at_time 1730530800000, Sample.put_status "t1" "open")]
               Sample.d_tickets) !! 0%nat
  = Some [admin_message (H := node_utc) closing_text 1730527200000;
          admin_message (H := node_utc) reopening_text 1730530800000].
Proof.
  change (Sample.put_status "t1" "closed")
    with {| method := "PUT"; url := "/api/tickets/t1";
            reqBody := Obj {[ "status" := JStr "closed" ]} |}.
  change (Sample.put_status "t1" "open")
    with {| method := "PUT"; url := "/api/tickets/t1";
            reqBody := Obj {[ "status" := JStr "open" ]} |}.
  rewrite (close_then_reopen (H := node_utc) (Sample.at_time 1730527200000)
             (Sample.at_time 1730530800000) "/api/tickets/t1" Sample.d_tickets
             0%nat (Sample.ticket "t1" "open") eq_refl eq_refl ltac:(discriminate)).
  reflexivity.
Defined.

(** ** Ids in request targets *)

Lemma digit_char_safe d : 0 <= d < 36 -> safe_char (digit_char d) = true.
Proof.
  intros Hd. assert (exists k : nat, d = Z.of_nat k /\ (k < 36)%nat) as (k & -> & Hk).
  { exists (Z.to_nat d). lia. }
  do 36 (destruct k as [|k]; [vm_compute; reflexivity|]). lia.
Qed.

Lemma digits36_safe fuel n acc :
  0 <= n -> all_chars safe_char acc = true ->
  all_chars safe_char (digits36 fuel n acc) = true.
Proof.
  revert n acc. induction fuel as [|fuel IH]; intros n acc Hn Hacc; cbn [digits36].
  - cbn [all_chars]. rewrite digit_char_safe, Hacc by (apply Z.mod_pos_bound; lia).
    reflexivity.
  - destruct (Z.ltb_spec n 36).
    + cbn [all_chars]. rewrite digit_char_safe, Hacc by lia. reflexivity.
    + apply IH; [apply Z.div_pos; lia|]. cbn [all_chars].
      rewrite digit_char_safe, Hacc by (apply Z.mod_pos_bound; lia). reflexivity.
Qed.

Lemma toString36_safe n : all_chars safe_char (toString36 n) = true.
Proof.
  unfold toString36. destruct (Z.ltb_spec n 0).
  - cbn [all_chars]. rewrite digits36_safe by (try reflexivity; lia). reflexivity.
  - apply digits36_safe; [lia|reflexivity].
Qed.

Lemma safe_no_slash s : all_chars safe_char s = true -> no_slash s.
Proof.
  unfold no_slash. induction s as [|a s IH]; [reflexivity|]. cbn [all_chars index_of].
  intros Hs. apply andb_prop in Hs as [Ha Hs]. rewrite (IH Hs).
  destruct (Ascii.eqb_spec a "/") as [->|]; [discriminate Ha|reflexivity].
Qed.

Lemma split_ticket_url id :
  no_slash id -> split "/" ("/api/tickets/" +:+ id) !! 3%nat = Some id.
Proof.
  intros Hid. change ("/api/tickets/" +:+ id) with ("/api/tickets" +:+ String "/" id).
  rewrite split_app_slash, (split_no_slash id Hid). reflexivity.
Qed.

Lemma route_get_ticket `{Runtime} e req d :
  method req = "GET" -> starts_with "/api/tickets/" (url req) = true ->
  handleAPI e req d = get_ticket (split "/" (url req) !! 3%nat) d.
Proof.
  intros Hm Hu. unfold handleAPI. rewrite Hm, Hu. known_method "GET".
  not_url Hu "/api/clients". not_url Hu "/api/programs". not_url Hu "/api/tickets".
  reflexivity.
Qed.

(** A ticket just created can be read back under its id: after a [POST
    /api/support/create] with an email and a password, a [GET /api/tickets/]
    followed by the id of the answer returns the very ticket of the answer,
    provided no ticket stored before has that id (the first one with the id
    would be returned instead). *)
Theorem create_then_get_ticket `{Runtime} e e' o d :
  truthy_opt (o !! "email") = true -> truthy_opt (o !! "password") = true ->
  (forall t, t ∈ tickets d -> Ticket.id t <> toString36 (clock e 0)) ->
  exists k d',
    handleAPI e (post_json "/api/support/create" o) d = (d', reply 201 (RTicket k))
    /\ d' = with_tickets (tickets d ++ [k]) d
    /\ handleAPI e' (get ("/api/tickets/" +:+ Ticket.id k)) d' = (d', reply 200 (RTicket k)).
Proof.
  intros He Hp Hfresh.
  change (handleAPI e (post_json "/api/support/create" o) d)
    with (post_support_create e (Obj o) d).
  unfold post_support_create. cbn [with_body]. rewrite He, Hp. cbn [negb orb].
  match goal with |- context [reply 201 (RTicket ?x)] => set (k := x) end.
  assert (Ticket.id k = toString36 (clock e 0)) as Hid.
  { unfold k. destruct (_ || _); reflexivity. }
  exists k, (with_tickets (tickets d ++ [k]) d). split; [reflexivity|]. split; [reflexivity|].
  rewrite route_get_ticket by (try reflexivity; apply starts_with_app).
  cbn [url get]. rewrite split_ticket_url
    by (rewrite Hid; apply safe_no_slash, toString36_safe).
  unfold get_ticket, find_ticket. cbn [tickets with_tickets].
  rewrite (list_find_middle _ (tickets d) k []); [reflexivity..|].
  intros t Hin [= Heq]. apply (Hfresh t Hin). congruence.
Qed.

Lemma create_then_get_ticket_witness :
  exists k d',
    handleAPI (H := node_utc) Sample.e0 Sample.new_ticket Sample.d_tickets
    = (d', reply 201 (RTicket k))
    /\ handleAPI (H := node_utc) Sample.e0 (get ("/api/tickets/" +:+ Ticket.id k)) d'
       = (d', reply 200 (RTicket k)).
Proof.
  destruct (create_then_get_ticket (H := node_utc) Sample.e0 Sample.e0
              {[ "email" := JStr "ann@example.org"; "password" := JStr "s3cret";
                 "message" := JStr "My plan does not load." ]} Sample.d_tickets)
    as (k & d' & Hpost & _ & Hget); try (vm_compute; reflexivity).
  { intros t Hin. cbn in Hin.
    repeat (apply elem_of_cons in Hin as [->|Hin]); [vm_compute; discriminate..|].
    inversion Hin. }
  exists k, d'. split; [exact Hpost|exact Hget].
Defined.

(** When the ids of the stored tickets are pairwise different, a ticket that
    [DELETE /api/tickets/:id] has removed is gone: a GET of the same target
    afterwards is answered 404. *)
Theorem deleted_ticket_is_gone `{Runtime} e e' u d i t :
  starts_with "/api/tickets/" u = true ->
  NoDup (Ticket.id <$> tickets d) ->
  find_ticket (split "/" u !! 3%nat) d = Some (i, t) ->
  let d' := fst (handleAPI e {| method := "DELETE"; url := u; reqBody := Obj ∅ |} d) in
  d' = with_tickets (delete i (tickets d)) d
  /\ handleAPI e' (get u) d' = (d', reply 404 (RError "not found")).
Proof.
  intros Hu Hnodup Hf d'. unfold d'.
  rewrite route_delete_ticket by (try reflexivity; exact Hu). cbn [url].
  unfold delete_ticket. rewrite Hf. cbn [fst]. split; [reflexivity|].
  rewrite route_get_ticket by (try reflexivity; exact Hu). cbn [url get].
  unfold get_ticket, find_ticket at 1. cbn [tickets with_tickets].
  rewrite list_find_absent; [reflexivity|].
  intros y Hin Hy. unfold find_ticket in Hf.
  apply list_find_Some in Hf as (Hi & Ht & _).
  apply list_elem_of_lookup_1 in Hin as [j Hj].
  assert (exists j', j' <> i /\ tickets d !! j' = Some y) as (j' & Hne & Hj').
  { destruct (decide (j < i)%nat).
    - exists j. split; [lia|]. rewrite list_lookup_delete_lt in Hj by assumption. exact Hj.
    - exists (S j). split; [lia|]. rewrite list_lookup_delete_ge in Hj by lia. exact Hj. }
  apply Hne. apply (NoDup_lookup _ j' i (Ticket.id y) Hnodup).
  - rewrite list_lookup_fmap, Hj'. reflexivity.
  - rewrite list_lookup_fmap, Hi. cbn. congruence.
Qed.

Lemma deleted_ticket_is_gone_witness :
  handleAPI (H := node_utc) Sample.e0 (get "/api/tickets/t1")
    (with_tickets [Sample.ticket "t2" "closed"] Sample.d_tickets)
  = (with_tickets [Sample.ticket "t2" "closed"] Sample.d_tickets,
     reply 404 (RError "not found")).
Proof.
  destruct (deleted_ticket_is_gone (H := node_utc) Sample.e0 Sample.e0 "/api/tickets/t1"
              Sample.d_tickets 0%nat (Sample.ticket "t1" "open") eq_refl) as [Hd Hget];
    [|reflexivity|].
  - cbn. apply NoDup_cons. split; [|apply NoDup_singleton].
    intros Hin. apply list_elem_of_singleton in Hin. discriminate Hin.
  - rewrite Hd in Hget. exact Hget.
Defined.

(** ** Where attachments are written *)

Lemma path_join_segment segs s :
  Forall proper segs -> proper s ->
  path_join (String "/" (join "/" segs)) s = String "/" (join "/" (segs ++ [s])).
Proof.
  intros Hsegs Hs. unfold path_join. cbn [String.eqb].
  destruct (proper_eqb s Hs) as (-> & _ & _). rewrite slash_append.
  destruct (normalize_absolute_path (String "/" (join "/" segs) +:+ String "/" s) eq_refl)
    as [_ ->].
  rewrite normalize_segments_below by exact Hsegs.
  rewrite split_no_slash by apply Hs.
  rewrite normalize_segments_proper, rev_involutive by (constructor; [exact Hs|constructor]).
  rewrite ends_with_slash_app by discriminate.
  rewrite ends_with_slash_cons by apply Hs.
  rewrite ends_with_slash_no_slash by apply Hs. rewrite append_nil_r.
  destruct (segs ++ [s]) eqn:Heq; [destruct segs; discriminate|reflexivity].
Qed.

Lemma all_chars_app p s t :
  all_chars p (s +:+ t) = all_chars p s && all_chars p t.
Proof.
  induction s as [|a s IH]; [reflexivity|].
  rewrite append_cons. cbn [all_chars]. rewrite IH, andb_assoc. reflexivity.
Qed.

Lemma strip_unsafe_safe s : all_chars safe_char (strip_unsafe s) = true.
Proof.
  unfold strip_unsafe. induction s as [|a s IH]; [reflexivity|]. cbn [filter_chars].
  destruct (safe_char a) eqn:Ha; [|exact IH]. cbn [all_chars]. rewrite Ha, IH. reflexivity.
Qed.

Lemma toString36_head n :
  exists c rest, toString36 n = String c rest /\ c <> "."%char.
Proof.
  unfold toString36. destruct (Z.ltb_spec n 0).
  - eexists _, _. split; [reflexivity|discriminate].
  - destruct (digits36_head (Z.to_nat (Z.log2 n)) n "") as (d & rest & Hd & ->); [lia|].
    exists (digit_char d), rest. split; [reflexivity|].
    pose proof (digit_char_safe d Hd) as Hsafe. intros Hdot.
    assert (exists k : nat, d = Z.of_nat k /\ (k < 36)%nat) as (k & -> & Hk).
    { exists (Z.to_nat d). lia. }
    do 36 (destruct k as [|k]; [vm_compute in Hdot; discriminate Hdot|]). lia.
Qed.

(** An attachment is always written into the uploads directory itself, under
    a name made of letters, digits, [_], [.] and [-] only, whatever the file
    name the client sent; the path stored in the message is [/uploads/]
    followed by that name. *)
Theorem attachment_written_inside_uploads `{Runtime} dsegs e k file fileName p :
  Forall proper dsegs -> __dirname = String "/" (join "/" dsegs) ->
  save_attachment e k file fileName = Some p ->
  exists name data,
    p = "/uploads/" +:+ name
    /\ all_chars safe_char name = true
    /\ UPLOAD_DIR = PUBLIC_DIR +:+ "/uploads"
    /\ writeFileSync e (UPLOAD_DIR +:+ "/" +:+ name) data = true.
Proof.
  intros Hd Hdir Hsave. unfold save_attachment in Hsave.
  destruct file as [[| | |file]|]; try discriminate.
  destruct fileName as [[| | |fileName]|]; try discriminate.
  set (name := toString36 (clock e k) +:+ "_" +:+ strip_unsafe fileName) in *.
  assert (all_chars safe_char name = true) as Hsafe.
  { unfold name. rewrite !all_chars_app, toString36_safe, strip_unsafe_safe. reflexivity. }
  assert (proper name) as Hname.
  { destruct (toString36_head (clock e k)) as (c & rest & Hhead & Hc).
    unfold proper, name. rewrite Hhead, append_cons.
    repeat split; try (intros [= Heq _]; contradiction).
    rewrite <- append_cons, <- Hhead. apply safe_no_slash, Hsafe. }
  destruct (PUBLIC_DIR_segments dsegs Hd Hdir) as [Hpublic Hp].
  assert (proper "uploads") as Huploads by (repeat split; discriminate).
  assert (UPLOAD_DIR = String "/" (join "/" ((dsegs ++ ["public"]) ++ ["uploads"])))
    as Hupload.
  { unfold UPLOAD_DIR. rewrite Hpublic. apply path_join_segment; assumption. }
  assert (Forall proper ((dsegs ++ ["public"]) ++ ["uploads"])) as Hu.
  { apply Forall_app. split; [exact Hp|]. repeat constructor; discriminate. }
  rewrite Hupload, (path_join_segment _ name Hu Hname) in Hsave.
  destruct (writeFileSync e _ _) eqn:Hwrite; [|discriminate].
  injection Hsave as <-. eexists name, _. split; [reflexivity|]. split; [exact Hsafe|].
  split.
  - rewrite Hupload, Hpublic.
    rewrite (join_app (dsegs ++ ["public"]) ["uploads"]) by (try discriminate;
      destruct dsegs; discriminate).
    rewrite <- append_cons. reflexivity.
  - rewrite Hupload. rewrite join_app in Hwrite by (try discriminate;
      destruct dsegs; discriminate).
    rewrite <- append_cons in Hwrite. exact Hwrite.
Qed.

Lemma attachment_written_inside_uploads_witness :
  exists name data,
    save_attachment (H := node_utc) Sample.e0 1 (Some (JStr "data:text/plain;base64,aGk="))
      (Some (JStr "../../etc/pass wd")) = Some ("/uploads/" +:+ name)
    /\ name = "m2zr7pc1_....etcpasswd"
    /\ writeFileSync Sample.e0 ("/srv/personal_training/public/uploads/" +:+ name) data
       = true.
Proof.
  destruct (attachment_written_inside_uploads (H := node_utc) ["srv"; "personal_training"]
              Sample.e0 1 (Some (JStr "data:text/plain;base64,aGk="))
              (Some (JStr "../../etc/pass wd")) "/uploads/m2zr7pc1_....etcpasswd")
    as (name & data & Hp & _ & _ & Hwrite);
    [repeat constructor; discriminate|reflexivity|vm_compute; reflexivity|].
  assert (name = "m2zr7pc1_....etcpasswd") as ->.
  { apply (inj (String.app "/uploads/")). symmetry. exact Hp. }
  eexists _, data. split; [vm_compute; reflexivity|]. split; [reflexivity|exact Hwrite].
Defined.

(** ** Creating clients and programs *)

(** A client created with a name and an email is stored last, under the id
    of the answer.  It is inactive only if the body carries [active] as the
    boolean [false]; any other value, or none, makes it active.  If the body
    carries no duration (or a falsy one) the stored duration is [null], and
    every later read reports [daysLeft] as [null] and leaves the client as
    active as it was: it never expires. *)
Theorem client_without_duration_never_expires `{Runtime} e e' o d :
  truthy_opt (o !! "name") = true -> truthy_opt (o !! "email") = true ->
  exists c,
    handleAPI e (post_json "/api/clients" o) d
    = (with_clients (clients d ++ [c]) d, reply 201 (RId (Client.id c)))
    /\ (Client.active c = false <-> o !! "active" = Some (JBool false))
    /\ (truthy_opt (o !! "duration") = false ->
        Client.duration c = JNull
        /\ exists d' l,
             handleAPI e' (get "/api/clients") (with_clients (clients d ++ [c]) d)
             = (d', reply 200 (RClients l))
             /\ last l = Some (Client.with_daysLeft JNull c)).
Proof.
  intros Hn He.
  change (handleAPI e (post_json "/api/clients" o) d) with (post_clients e (Obj o) d).
  unfold post_clients. cbn [with_body]. rewrite Hn, He. cbn [negb orb].
  match goal with |- context [clients d ++ [?x]] => exists x end.
  split; [reflexivity|]. cbn [Client.active Client.duration]. split.
  - unfold strict_eq. rewrite negb_false_iff, bool_decide_eq_true. reflexivity.
  - intros Hd.
    assert (or_default (o !! "duration") JNull = JNull) as Hnull.
    { unfold or_default. destruct (o !! "duration") as [v|]; [|reflexivity].
      cbn in Hd. rewrite Hd. reflexivity. }
    split; [exact Hnull|].
    change (handleAPI e' (get "/api/clients") ?x) with (get_clients e' x).
    unfold get_clients. cbn zeta. eexists _, _. split; [reflexivity|].
    cbn [clients with_clients]. rewrite !map_app, last_app. cbn [map last fst].
    unfold refresh at 1. cbn [Client.duration]. rewrite Hnull. cbn [truthy].
    rewrite andb_false_r. reflexivity.
Qed.

Lemma client_without_duration_never_expires_witness :
  exists c d' l,
    handleAPI (H := node_utc) Sample.e0
      (post_json "/api/clients"
         {[ "name" := JStr "Ann"; "email" := JStr "ann@example.org";
            "active" := JStr "false" ]}) initDB
    = (with_clients [c] initDB, reply 201 (RId (Client.id c)))
    /\ Client.active c = true
    /\ handleAPI (H := node_utc) (Sample.at_time 4102444800000) (get "/api/clients")
         (with_clients [c] initDB)
       = (d', reply 200 (RClients l))
    /\ last l = Some (Client.with_daysLeft JNull c).
Proof.
  set (o := {[ "name" := JStr "Ann"; "email" := JStr "ann@example.org";
               "active" := JStr "false" ]} : gmap string json).
  assert (truthy_opt (o !! "name") = true) as Hn by (vm_compute; reflexivity).
  assert (truthy_opt (o !! "email") = true) as He by (vm_compute; reflexivity).
  assert (truthy_opt (o !! "duration") = false) as Hd by (vm_compute; reflexivity).
  assert (o !! "active" <> Some (JBool false)) as Ha by (vm_compute; discriminate).
  destruct (client_without_duration_never_expires (H := node_utc) Sample.e0
              (Sample.at_time 4102444800000) o initDB Hn He)
    as (c & Hpost & Hactive & Hread).
  destruct (Hread Hd) as (_ & d' & l & Hget & Hlast).
  exists c, d', l.
  assert (Client.active c = true) as Hc.
  { destruct (Client.active c) eqn:Hac; [reflexivity|]. destruct Ha. apply Hactive. reflexivity. }
  split; [exact Hpost|]. split; [exact Hc|]. split; [exact Hget|exact Hlast].
Defined.

(** A program created with a title can be read back: [POST /api/programs]
    answers 201 with a non-empty id, and a [GET /api/programs] afterwards
    returns the programs stored before followed by the new one, which has the
    title as sent, the description as sent or the empty text, and the image as
    sent or [null]. *)
Theorem post_program_then_get `{Runtime} e e' o d title :
  o !! "title" = Some title -> truthy title = true ->
  let p :=
    {| Program.id := toString36 (clock e 0); Program.title := title;
       Program.description := or_default (o !! "description") (JStr "");
       Program.image := or_default (o !! "image") JNull |} in
  let d' := with_programs (programs d ++ [p]) d in
  handleAPI e (post_json "/api/programs" o) d = (d', reply 201 (RId (Program.id p)))
  /\ Program.id p <> ""
  /\ handleAPI e' (get "/api/programs") d' = (d', reply 200 (RPrograms (programs d ++ [p]))).
Proof.
  intros Ht Htruthy p d'.
  change (handleAPI e (post_json "/api/programs" o) d) with (post_programs e (Obj o) d).
  unfold post_programs. cbn [with_body]. rewrite Ht. cbn [truthy_opt present default].
  rewrite Htruthy. cbn [negb]. split; [reflexivity|]. split; [|reflexivity].
  apply toString36_not_empty.
Qed.

Lemma post_program_then_get_witness :
  handleAPI (H := node_utc) Sample.e0 (get "/api/programs")
    (fst (handleAPI (H := node_utc) Sample.e0
            (post_json "/api/programs" {[ "title" := JStr "Strength" ]}) initDB))
  = (with_programs
       [{| Program.id := "m2zr7pc0"; Program.title := JStr "Strength";
           Program.description := JStr ""; Program.image := JNull |}] initDB,
     reply 200
       (RPrograms
          [{| Program.id := "m2zr7pc0"; Program.title := JStr "Strength";
              Program.description := JStr ""; Program.image := JNull |}])).
Proof.
  assert (({[ "title" := JStr "Strength" ]} : gmap string json) !! "title"
          = Some (JStr "Strength")) as Htitle by (vm_compute; reflexivity).
  destruct (post_program_then_get (H := node_utc) Sample.e0 Sample.e0
              {[ "title" := JStr "Strength" ]} initDB (JStr "Strength") Htitle eq_refl)
    as (Hpost & _ & Hget).
  rewrite Hpost. cbn [fst]. rewrite Hget. vm_compute. reflexivity.
Defined.

(** ** Lookups that find nothing, lookups by credentials *)

(** Reading, updating or extending a ticket under an id that no stored
    ticket has is answered 404 "not found" and changes nothing (for a new
    message the body must first pass the check for a text or a file). *)
Theorem unknown_ticket_is_404 `{Runtime} e req d :
  starts_with "/api/tickets/" (url req) = true ->
  (forall t, t ∈ tickets d -> Some (Ticket.id t) <> split "/" (url req) !! 3%nat) ->
  method req = "GET"
  \/ (method req = "PUT" /\ exists o, reqBody req = Obj o)
  \/ (method req = "POST" /\ split "/" (url req) !! 4%nat = Some "message"
      /\ exists o, reqBody req = Obj o
                   /\ (truthy_opt (o !! "text") = true \/ truthy_opt (o !! "file") = true)) ->
  handleAPI e req d = (d, reply 404 (RError "not found")).
Proof.
  intros Hu Hnone Hcase.
  assert (find_ticket (split "/" (url req) !! 3%nat) d = None) as Hfind.
  { apply list_find_absent. exact Hnone. }
  destruct Hcase as [Hm|[[Hm [o Hb]]|(Hm & Hp & o & Hb & Hsome)]].
  - rewrite route_get_ticket by assumption. unfold get_ticket. rewrite Hfind. reflexivity.
  - rewrite route_put_ticket by assumption. unfold put_ticket. rewrite Hb. cbn [with_body].
    rewrite Hfind. reflexivity.
  - rewrite route_post_message by assumption. unfold post_message. rewrite Hb.
    cbn [with_body]. rewrite Hfind.
    destruct Hsome as [-> | ->]; rewrite ?andb_false_r; reflexivity.
Qed.

Lemma unknown_ticket_is_404_witness :
  handleAPI (H := node_utc) Sample.e0 (Sample.put_status "t9" "closed") Sample.d_tickets
  = (Sample.d_tickets, reply 404 (RError "not found")).
Proof.
  apply (unknown_ticket_is_404 (H := node_utc)); [reflexivity| |].
  - intros t Hin. cbn in Hin.
    repeat (apply elem_of_cons in Hin as [->|Hin]); [vm_compute; discriminate..|].
    inversion Hin.
  - right. left. split; [reflexivity|]. eexists. reflexivity.
Defined.

Lemma insert_sorted_elem_of {A} (compare : A -> A -> option Z) x y l :
  y ∈ insert_sorted compare x l -> y = x \/ y ∈ l.
Proof.
  induction l as [|z l IH]; cbn.
  - intros Hin. apply list_elem_of_singleton in Hin. auto.
  - destruct (before compare x z).
    + intros Hin. apply elem_of_cons in Hin as [->|Hin]; auto.
    + intros Hin. apply elem_of_cons in Hin as [->|Hin]; [right; left|].
      destruct (IH Hin) as [->|Hl]; [auto|right; right; exact Hl].
Qed.

Lemma sort_elem_of {A} (compare : A -> A -> option Z) y l :
  y ∈ sort compare l -> y ∈ l.
Proof.
  induction l as [|x l IH]; cbn; [auto|].
  intros Hin. apply insert_sorted_elem_of in Hin as [->|Hin]; [left|right; auto].
Qed.

(** [GET /api/user/ticket] never changes the store and never hands out a
    ticket for other credentials: whatever the [created] fields hold, a ticket
    in the answer is a stored ticket whose email and password are the ones of
    the query. *)
Theorem user_ticket_matches_credentials `{Runtime} e req d :
  method req = "GET" -> starts_with "/api/user/ticket" (url req) = true ->
  fst (handleAPI e req d) = d
  /\ forall code t,
       snd (handleAPI e req d) = reply code (RTicket t) ->
       t ∈ tickets d
       /\ Some (Ticket.email t) = JStr <$> searchParams_get (url req) "email"
       /\ Some (Ticket.password t) = JStr <$> searchParams_get (url req) "password".
Proof.
  intros Hm Hu. rewrite route_get_user_ticket by assumption. unfold get_user_ticket.
  destruct (missing _ || missing _); [split; [reflexivity|discriminate]|].
  destruct (sort _ _) as [|t0 rest] eqn:Hsort; [split; [reflexivity|discriminate]|].
  split; [reflexivity|]. cbn [snd]. intros code t [= _ <-].
  assert (t0 ∈ sort by_created_desc
                 (List.filter
                    (credentials_match (searchParams_get (url req) "email")
                       (searchParams_get (url req) "password")) (tickets d))) as Hin.
  { rewrite Hsort. left. }
  apply sort_elem_of, list_elem_of_In, filter_In in Hin as [Hin Hmatch].
  unfold credentials_match, strict_eq in Hmatch.
  apply andb_prop in Hmatch as [He Hp]. apply bool_decide_eq_true_1 in He, Hp.
  split; [apply list_elem_of_In, Hin|]. split; assumption.
Qed.

Lemma user_ticket_matches_credentials_witness :
  fst (handleAPI (H := node_utc) Sample.e0
         (get "/api/user/ticket?email=bob%40example.org&password=wrong") Sample.d_user)
  = Sample.d_user.
Proof.
  apply (user_ticket_matches_credentials (H := node_utc)); reflexivity.
Defined.
